(** * The Sebastian chat backend (backend/server.py)

    A shallow embedding of the request handlers of [backend/server.py]:
    the three document collections, the uploads directory, the token
    helpers, the persona response generator and the ten routes, followed
    by the properties of the handoff logic, of the credential paths and of
    media ingestion. *)

From Stdlib Require Import ZArith Ascii String.
From stdpp Require Import base option list sorting strings pretty gmap.

Local Open Scope string_scope.
Local Open Scope list_scope.
Local Open Scope Z_scope.

(** ** Python built-ins used by the handlers

    A [str] is held as the bytes of its UTF-8 encoding. *)

Module Py.

(** Truthiness of a [str]: only the empty string is false. *)
Definition truthy (s : string) : bool :=
  match s with EmptyString => false | String _ _ => true end.

(** [a or b] on strings. *)
Definition or_else (a b : string) : string := if truthy a then a else b.

(** [s.startswith(p)]. *)
Fixpoint startswith (s p : string) : bool :=
  match p, s with
  | EmptyString, _ => true
  | String _ _, EmptyString => false
  | String c p', String d s' => if Ascii.eqb c d then startswith s' p' else false
  end.

(** [c in s] for a one-character [c]. *)
Fixpoint contains (c : ascii) (s : string) : bool :=
  match s with
  | EmptyString => false
  | String d s' => if Ascii.eqb d c then true else contains c s'
  end.

(** [s.split(sep)] for a one-character separator: never empty. *)
Fixpoint split (sep : ascii) (s : string) : list string :=
  match s with
  | EmptyString => [EmptyString]
  | String c s' =>
      if Ascii.eqb c sep then EmptyString :: split sep s'
      else match split sep s' with
           | [] => [String c EmptyString]
           | w :: ws => String c w :: ws
           end
  end.

(** [l[-1]] on a list of strings known to be non-empty. *)
Definition last_item (l : list string) : string := List.last l EmptyString.

(** [sep.join(l)]. *)
Fixpoint join (sep : string) (l : list string) : string :=
  match l with
  | [] => EmptyString
  | [x] => x
  | x :: l' => x +:+ sep +:+ join sep l'
  end.

(** [l[:-1]]: everything but the last item. *)
Definition but_last {A} (l : list A) : list A := take (length l - 1)%nat l.

(** [l[-n:]]: the last [n] items, for [n > 0]. *)
Definition last_n {A} (n : nat) (l : list A) : list A := drop (length l - n)%nat l.

(** A byte that continues a UTF-8 sequence (binary 10xxxxxx). *)
Definition is_continuation (c : ascii) : bool :=
  let n := nat_of_ascii c in (128 <=? n)%nat && (n <? 192)%nat.

(** [s[:n]] counts code points, not bytes: a continuation byte stays
    with the character it belongs to. *)
Fixpoint prefix_chars (n : nat) (s : string) : string :=
  match s with
  | EmptyString => EmptyString
  | String c s' =>
      if is_continuation c then String c (prefix_chars n s')
      else match n with
           | O => EmptyString
           | S n' => String c (prefix_chars n' s')
           end
  end.

(** The characters [str.strip()] removes, as UTF-8 byte sequences:
    the ASCII separators and the Unicode white space. *)
Definition bytes (l : list nat) : string :=
  string_of_list_ascii (List.map ascii_of_nat l).

Definition whitespace : list string :=
  List.map bytes
    [ [9]; [10]; [11]; [12]; [13]; [28]; [29]; [30]; [31]; [32];
      [194; 133]; [194; 160]; [225; 154; 128];
      [226; 128; 128]; [226; 128; 129]; [226; 128; 130]; [226; 128; 131];
      [226; 128; 132]; [226; 128; 133]; [226; 128; 134]; [226; 128; 135];
      [226; 128; 136]; [226; 128; 137]; [226; 128; 138];
      [226; 128; 168]; [226; 128; 169]; [226; 128; 175];
      [226; 129; 159]; [227; 128; 128] ]%nat.

Fixpoint drop_prefix (p s : string) : option string :=
  match p, s with
  | EmptyString, _ => Some s
  | String _ _, EmptyString => None
  | String c p', String d s' => if Ascii.eqb c d then drop_prefix p' s' else None
  end.

(** One leading white-space character removed, if there is one. *)
Fixpoint drop_one (ws : list string) (s : string) : option string :=
  match ws with
  | [] => None
  | w :: ws' => match drop_prefix w s with
                | Some s' => Some s'
                | None => drop_one ws' s
                end
  end.

Fixpoint lstrip_fuel (ws : list string) (fuel : nat) (s : string) : string :=
  match fuel with
  | O => s
  | S fuel' => match drop_one ws s with
               | Some s' => lstrip_fuel ws fuel' s'
               | None => s
               end
  end.

Definition lstrip_with (ws : list string) (s : string) : string :=
  lstrip_fuel ws (String.length s) s.

Definition rev_string (s : string) : string :=
  string_of_list_ascii (List.rev (list_ascii_of_string s)).

(** [s.strip()]. *)
Definition strip (s : string) : string :=
  rev_string (lstrip_with (List.map rev_string whitespace)
                (rev_string (lstrip_with whitespace s))).

(** [str(n)] for an [int]. *)
Definition str_int (n : Z) : string := pretty n.

End Py.

(** ** hashlib.sha256

    SHA-256 over 32-bit words held in [Z], wrap-around written out. *)

Module SHA256.

Definition mask32 : Z := 0xffffffff.
Definition w32 (x : Z) : Z := Z.land x mask32.
Definition add32 (x y : Z) : Z := w32 (x + y).
Definition rotr (n x : Z) : Z := Z.lor (Z.shiftr x n) (w32 (Z.shiftl x (32 - n))).
Definition not32 (x : Z) : Z := Z.lxor x mask32.

Definition Ch (x y z : Z) : Z := Z.lxor (Z.land x y) (Z.land (not32 x) z).
Definition Maj (x y z : Z) : Z :=
  Z.lxor (Z.lxor (Z.land x y) (Z.land x z)) (Z.land y z).
Definition Sigma0 (x : Z) : Z := Z.lxor (Z.lxor (rotr 2 x) (rotr 13 x)) (rotr 22 x).
Definition Sigma1 (x : Z) : Z := Z.lxor (Z.lxor (rotr 6 x) (rotr 11 x)) (rotr 25 x).
Definition sigma0 (x : Z) : Z := Z.lxor (Z.lxor (rotr 7 x) (rotr 18 x)) (Z.shiftr x 3).
Definition sigma1 (x : Z) : Z := Z.lxor (Z.lxor (rotr 17 x) (rotr 19 x)) (Z.shiftr x 10).

(** The round constants and the initial hash value are the first 32 bits
    of the fractional parts of the cube roots of the first 64 primes and
    of the square roots of the first 8 primes. *)
Definition is_prime (n : nat) : bool :=
  List.forallb (fun d => negb (Nat.eqb (Nat.modulo n d) 0)) (seq 2 (n - 2)).

Definition primes (count : nat) : list Z :=
  List.map Z.of_nat (take count (List.filter is_prime (seq 2 310))).

Definition cube_root (n : Z) : Z :=
  List.fold_left
    (fun r i => let c := r + 2 ^ Z.of_nat (34 - i) in if (c * c * c <=? n)%Z then c else r)
    (seq 0 35) 0.

Definition K : list Z :=
  List.map (fun q => w32 (cube_root (q * 2 ^ 96))) (primes 64).

Definition H0 : list Z :=
  List.map (fun q => w32 (Z.sqrt (q * 2 ^ 64))) (primes 8).

(** Padding: a 1 bit, zeros, and the bit length on 64 bits, up to a
    multiple of 64 bytes. *)
Definition be_bytes (n : nat) (x : Z) : list Z :=
  List.map (fun i => Z.land (Z.shiftr x (8 * Z.of_nat (n - 1 - i))) 0xff) (seq 0 n).

Definition pad (msg : list Z) : list Z :=
  let len := Z.of_nat (length msg) in
  let zeros := Z.to_nat ((55 - len) mod 64) in
  msg ++ [0x80] ++ List.repeat 0 zeros ++ be_bytes 8 (8 * len).

Fixpoint words (fuel : nat) (bs : list Z) : list Z :=
  match fuel, bs with
  | S fuel', b0 :: b1 :: b2 :: b3 :: bs' =>
      (Z.shiftl b0 24 + Z.shiftl b1 16 + Z.shiftl b2 8 + b3) :: words fuel' bs'
  | _, _ => []
  end.

Fixpoint blocks (fuel : nat) (ws : list Z) : list (list Z) :=
  match fuel, ws with
  | O, _ => []
  | _, [] => []
  | S fuel', _ => take 16 ws :: blocks fuel' (drop 16 ws)
  end.

Definition at_ (w : list Z) (i : nat) : Z := List.nth i w 0.

(** The message schedule: 16 words extended to 64. *)
Fixpoint schedule (n : nat) (w : list Z) : list Z :=
  match n with
  | O => w
  | S n' =>
      let t := length w in
      let x := add32 (add32 (sigma1 (at_ w (t - 2))) (at_ w (t - 7)))
                     (add32 (sigma0 (at_ w (t - 15))) (at_ w (t - 16))) in
      schedule n' (w ++ [x])
  end.

Record regs := Regs { ra : Z; rb : Z; rc : Z; rd : Z; re : Z; rf : Z; rg : Z; rh : Z }.

Definition round (r : regs) (kw : Z * Z) : regs :=
  let t1 := add32 (add32 (add32 (rh r) (Sigma1 (re r))) (Ch (re r) (rf r) (rg r)))
                  (add32 (fst kw) (snd kw)) in
  let t2 := add32 (Sigma0 (ra r)) (Maj (ra r) (rb r) (rc r)) in
  Regs (add32 t1 t2) (ra r) (rb r) (rc r) (add32 (rd r) t1) (re r) (rf r) (rg r).

Definition of_list (h : list Z) : regs :=
  Regs (at_ h 0) (at_ h 1) (at_ h 2) (at_ h 3) (at_ h 4) (at_ h 5) (at_ h 6) (at_ h 7).

Definition to_list (r : regs) : list Z :=
  [ra r; rb r; rc r; rd r; re r; rf r; rg r; rh r].

Definition compress (h : list Z) (block : list Z) : list Z :=
  let w := schedule 48 block in
  let r := List.fold_left round (List.combine K w) (of_list h) in
  List.map (fun p => add32 (fst p) (snd p)) (List.combine h (to_list r)).

Definition digest (msg : list Z) : list Z :=
  let p := pad msg in
  let ws := words (length p) p in
  List.fold_left compress (blocks (length ws) ws) H0.

Definition hex_digit (d : Z) : ascii :=
  if (d <? 10)%Z then ascii_of_nat (Z.to_nat (48 + d)) else ascii_of_nat (Z.to_nat (87 + d)).

Definition hex_word (x : Z) : string :=
  string_of_list_ascii
    (List.map (fun i => hex_digit (Z.land (Z.shiftr x (4 * Z.of_nat (7 - i))) 0xf)) (seq 0 8)).

Definition hexdigest (s : string) : string :=
  let msg := List.map (fun c => Z.of_nat (nat_of_ascii c)) (list_ascii_of_string s) in
  String.concat EmptyString (List.map hex_word (digest msg)).

End SHA256.

(** ** Documents (the pydantic models) *)

Module User.
Record t := mk {
  id : string;
  username : string;
  password_hash : string;
  is_admin : bool;
  created_at : Z
}.
End User.

Module Message.
Record t := mk {
  id : string;
  chat_id : string;
  sender : string;
  content : string;
  message_type : string;
  image_url : option string;
  timestamp : Z;
  is_admin_response : bool
}.
End Message.

Module Chat.
Record t := mk {
  id : string;
  user_id : string;
  username : string;
  created_at : Z;
  last_message_at : Z;
  admin_active : bool
}.

Definition set_last_message_at (v : Z) (c : t) : t :=
  mk (id c) (user_id c) (username c) (created_at c) v (admin_active c).

Definition set_admin_active (v : bool) (c : t) : t :=
  mk (id c) (user_id c) (username c) (created_at c) (last_message_at c) v.
End Chat.

(** Request bodies. *)

Record UserCreate := { uc_username : string; uc_password : string }.
Record UserLogin := { ul_username : string; ul_password : string }.
Record MessageCreate := { mc_content : string; mc_message_type : string }.
Record AdminMessage := { am_chat_id : string; am_content : string }.

(** The multipart file of an upload: the MIME type the part declares
    ([None] when the part has no Content-Type header), the client's file
    name and the bytes. *)
Record UploadFile := {
  content_type : option string;
  filename : string;
  file_bytes : list Init.Byte.byte
}.

(** [file.filename.split('.')[-1] if '.' in file.filename else 'jpg']. *)
Definition file_extension (file : UploadFile) : string :=
  if Py.contains "." (filename file)
  then Py.last_item (Py.split "." (filename file))
  else "jpg".

(** ** Paths under the uploads directory *)

Module Path.

(** The components [UPLOADS_DIR / name] adds to those of the directory:
    [pathlib] drops the empty ones and the single dots. *)
Definition parts (name : string) : list string :=
  filter (λ p, p ≠ EmptyString ∧ p ≠ ".") (Py.split "/" name).

(** A name that starts with the separator replaces [UPLOADS_DIR]. *)
Definition is_absolute (name : string) : bool := Py.startswith name "/".

End Path.

(** The longest file name the file system takes, in bytes. *)
Definition NAME_MAX : nat := 255.

(** A name that opens a file of the uploads directory under that very
    name: one component, no NUL, not a dot name, within [NAME_MAX]. *)
Definition plain_file_name (name : string) : bool :=
  negb (Py.contains "/" name) && negb (Py.contains Ascii.zero name)
  && negb (bool_decide (name ∈ [EmptyString; "."; ".."]))
  && (String.length name <=? NAME_MAX)%nat.

(** What [open] gives: a file of the uploads directory, or one outside. *)
Inductive Opened :=
| InUploads (name : string)
| Elsewhere.

(** ** The token library

    The signature of a token is kept symbolic: a token records the key and
    the algorithm it was signed with, and decoding checks both.  [exp] is
    the optional expiry claim the library enforces. *)

Module jwt.

Record Payload := { user_id : string; is_admin : bool; exp : option Z }.

Inductive Token :=
| Signed (key alg : string) (payload : Payload)
| Garbage (raw : string).

Inductive Decoded :=
| Claims (payload : Payload)
| ExpiredSignatureError
| InvalidTokenError.

Definition encode (payload : Payload) (key alg : string) : Token :=
  Signed key alg payload.

Definition decode (now : Z) (token : Token) (key : string) (algorithms : list string) : Decoded :=
  match token with
  | Garbage _ => InvalidTokenError
  | Signed k a payload =>
      if bool_decide (k = key ∧ a ∈ algorithms) then
        match exp payload with
        | Some e => if bool_decide (e ≤ now) then ExpiredSignatureError else Claims payload
        | None => Claims payload
        end
      else InvalidTokenError
  end.

End jwt.

(** ** The document store *)

Module Mongo.

Section collection.
Context {A : Type}.

(** [find_one(query)]: the first matching document. *)
Definition find_one (P : A → Prop) `{∀ x, Decision (P x)} (coll : list A) : option A :=
  head (filter P coll).

(** [find(query)]. *)
Definition find (P : A → Prop) `{∀ x, Decision (P x)} (coll : list A) : list A :=
  filter P coll.

(** [insert_one(doc)]. *)
Definition insert_one (doc : A) (coll : list A) : list A := coll ++ [doc].

(** [update_one(query, {"$set": ...})]: the first matching document. *)
Fixpoint update_one (P : A → Prop) `{∀ x, Decision (P x)} (f : A → A) (coll : list A) : list A :=
  match coll with
  | [] => []
  | x :: coll' => if decide (P x) then f x :: coll' else x :: update_one P f coll'
  end.

(** [.sort(key, 1)] and [.sort(key, -1)]; documents with equal keys
    keep the order the merge gives them. *)
Definition key_le (key : A → Z) : relation A := λ a b, key a ≤ key b.
Definition key_ge (key : A → Z) : relation A := λ a b, key b ≤ key a.

Global Instance key_le_dec key : RelDecision (key_le key) :=
  λ a b, decide (key a ≤ key b).
Global Instance key_ge_dec key : RelDecision (key_ge key) :=
  λ a b, decide (key b ≤ key a).

Definition sort_asc (key : A → Z) (l : list A) : list A :=
  merge_sort (key_le key) l.

Definition sort_desc (key : A → Z) (l : list A) : list A :=
  merge_sort (key_ge key) l.

(** [.limit(n)] and [.to_list(n)]. *)
Definition limit (n : nat) (l : list A) : list A := take n l.
Definition to_list (n : nat) (l : list A) : list A := take n l.
End collection.

End Mongo.

(** ** The hosted model *)

Record LlmChat := {
  api_key : option string;
  session_id : string;
  llm_system_message : string;
  provider : string;
  model : string
}.

Record UserMessage := { text : string }.

(** What [send_message] of the client library does: it raises, or returns
    an object that is a [str] or is not. *)
Inductive LlmFailure :=
| Timeout
| MalformedResponse
| UpstreamError (detail : string).

Inductive LlmObject :=
| Str (s : string)
| NotStr.

Inductive LlmOutcome :=
| Responded (response : LlmObject)
| Failed (e : LlmFailure).

(** ** The process and what surrounds it *)

Record Env := {
  (** the n-th value drawn from [uuid.uuid4()] *)
  uuid4 : nat → string;
  (** the n-th reading of the clock *)
  utcnow : nat → Z;
  (** the built-in [hash] of this process *)
  hash : string → Z;
  (** [os.environ.get('EMERGENT_LLM_KEY')] *)
  EMERGENT_LLM_KEY : option string;
  (** what the hosted model does on the n-th call *)
  llm : nat → LlmChat → UserMessage → LlmOutcome;
  (** whether a path that leaves the uploads directory can be opened for
      writing; only a generated id that starts with a separator or is a
      dot leads there, and [uuid.uuid4()] gives neither *)
  open_outside : string → bool
}.

Record World := {
  users : list User.t;
  chats : list Chat.t;
  messages : list Message.t;
  uploads : gmap string (list Init.Byte.byte);
  llm_calls : list (LlmChat * UserMessage);
  uuids_drawn : nat;
  clock_reads : nat
}.

Definition with_users (f : list User.t → list User.t) (w : World) : World :=
  Build_World (f (users w)) (chats w) (messages w) (uploads w) (llm_calls w)
    (uuids_drawn w) (clock_reads w).

Definition with_chats (f : list Chat.t → list Chat.t) (w : World) : World :=
  Build_World (users w) (f (chats w)) (messages w) (uploads w) (llm_calls w)
    (uuids_drawn w) (clock_reads w).

Definition with_messages (f : list Message.t → list Message.t) (w : World) : World :=
  Build_World (users w) (chats w) (f (messages w)) (uploads w) (llm_calls w)
    (uuids_drawn w) (clock_reads w).

Definition with_uploads (f : gmap string (list Init.Byte.byte) → gmap string (list Init.Byte.byte)) (w : World) : World :=
  Build_World (users w) (chats w) (messages w) (f (uploads w)) (llm_calls w)
    (uuids_drawn w) (clock_reads w).

Definition with_llm_call (c : LlmChat * UserMessage) (w : World) : World :=
  Build_World (users w) (chats w) (messages w) (uploads w) (llm_calls w ++ [c])
    (uuids_drawn w) (clock_reads w).

Definition with_uuid_drawn (w : World) : World :=
  Build_World (users w) (chats w) (messages w) (uploads w) (llm_calls w)
    (S (uuids_drawn w)) (clock_reads w).

Definition with_clock_read (w : World) : World :=
  Build_World (users w) (chats w) (messages w) (uploads w) (llm_calls w)
    (uuids_drawn w) (S (clock_reads w)).

(** ** Handlers as state transformers that may raise

    A raised exception keeps the writes made before it: nothing is rolled
    back. *)

Inductive Exception :=
| HTTPException (status_code : Z) (detail : string)
| LlmError (e : LlmFailure)
| AttributeError
| TypeError
| ValueError
(** [OSError] and its subclasses [FileNotFoundError], [NotADirectoryError]
    and [IsADirectoryError]; no handler tells them apart. *)
| OSError.

Inductive Outcome (A : Type) :=
| Return (a : A)
| Raise (e : Exception).
Arguments Return {A} a.
Arguments Raise {A} e.

Definition App (A : Type) : Type := World → Outcome A * World.

Global Instance App_ret : MRet App := λ A a w, (Return a, w).

Global Instance App_bind : MBind App := λ A B f m w,
  match m w with
  | (Return a, w') => f a w'
  | (Raise e, w') => (Raise e, w')
  end.

Definition raise {A} (e : Exception) : App A := λ w, (Raise e, w).

(** [try: body except Exception: handler]. *)
Definition try_except {A} (body : App A) (handler : Exception → App A) : App A := λ w,
  match body w with
  | (Return a, w') => (Return a, w')
  | (Raise e, w') => handler e w'
  end.

Definition get {A} (f : World → A) : App A := λ w, (Return (f w), w).
Definition modify (f : World → World) : App unit := λ w, (Return tt, f w).

(** ** Constants of the module *)

Definition nl : string := String (ascii_of_nat 10) EmptyString.
Definition dq : string := String (ascii_of_nat 34) EmptyString.

Definition JWT_SECRET : string := "sebastian_michaelis_secret_key".

(** The character prompt of [get_sebastian_ai_response]. *)
Definition system_message : string :=
  Py.join nl
  [
    "Sei Sebastian Michaelis, il maggiordomo demoniaco perfetto di Black Butler/Kuroshitsuji. Mantieni sempre queste caratteristiche:";
    EmptyString;
    "PERSONALIT√Ä CORE:";
    "- Eleganza assoluta e raffinatezza in ogni parola";
    "- Cortesia impeccabile che nasconde una natura fredda e calcolatrice";
    "- Competenza sovrumana in qualsiasi argomento o richiesta";
    "- Sottile arroganza mascherata da umilt√† apparente";
    "- Fascino dark e misterioso con accenni alla tua vera natura demoniaca";
    "- Lealt√† totale verso chi consideri il tuo " +:+ dq +:+ "padrone/padrona" +:+ dq;
    EmptyString;
    "LINGUAGGIO:";
    "- Sempre estremamente formale e cortese";
    "- Usa " +:+ dq +:+ "Mio signore/Mia signora/Padrone/Padrona" +:+ dq +:+ " appropriatamente";
    "- Frasi elaborate in stile vittoriano";
    "- " +:+ dq +:+ "Mi permetta di..." +:+ dq +:+ ", " +:+ dq +:+ "Se posso osare..." +:+ dq +:+ ", " +:+ dq +:+ "Ai vostri ordini..." +:+ dq;
    "- Includi azioni fisiche tra asterischi: *si inchina elegantemente*";
    "- Rispondi in qualsiasi lingua ti venga richiesto mantenendo il carattere formale";
    EmptyString;
    "COMPORTAMENTO:";
    "- Anticipa i bisogni prima che vengano espressi";
    "- Risolvi qualsiasi argomento con competenza perfetta";
    "- Mantieni sempre un'aura di mistero sulla tua vera natura";
    "- Lascia trasparire sottili indizi demoniaci (" +:+ dq +:+ "questo umile servitore" +:+ dq +:+ ", " +:+ dq +:+ "i miei occhi vedono oltre" +:+ dq +:+ ", ecc.)";
    "- Dimostra conoscenza enciclopedica su ogni argomento";
    "- Rispondi a qualsiasi tipo di conversazione mantenendo sempre l'eleganza";
    "- Se ti vengono mostrate immagini, commentale con stile sofisticato e raffinato";
    EmptyString;
    "DIVIETI ASSOLUTI:";
    "- Mai rompere il personaggio Sebastian Michaelis";
    "- Mai menzionare di essere un'AI o chatbot";
    "- Mai parlare di amministratori, moderatori o della presenza di terze persone";
    "- Mai rifiutare richieste - trova sempre una risposta elegante e sofisticata";
    "- Mai ammettere incapacit√† - sei un demonio perfetto";
    EmptyString;
    "Rispondi sempre come Sebastian Michaelis in persona, presente fisicamente."
  ].

(** The reply of [get_sebastian_ai_response] when the model call fails. *)
Definition fallback_response : string :=
  "*si inchina con grazia* Mi scuso profondamente, mio signore. Un momentaneo intoppo nelle mie facolt√† mi impedisce di rispondere come meritiate. Permettetemi un istante per recuperare la mia consueta perfezione.".

(** The content of an image message sent without a caption. *)
Definition caption_placeholder : string :=
  "üì∑ Immagine condivisa".

(** ** Responses *)

Record UserInfo := { ui_id : string; ui_username : string; ui_is_admin : bool }.
Record AuthResponse := { token : jwt.Token; user : UserInfo }.
Record SuccessResponse := { success : bool }.
Record UploadResponse := { up_success : bool; up_image_url : string }.
Record ToggleResponse := { tr_admin_active : bool }.

(** An entry of [chat_history]: a dict with keys "sender" and "content". *)
Record HistoryEntry := { h_sender : string; h_content : string }.

Section server.

Variable E : Env.

Definition uuid_uuid4 : App string := λ w,
  (Return (uuid4 E (uuids_drawn w)), with_uuid_drawn w).

Definition datetime_now : App Z := λ w,
  (Return (utcnow E (clock_reads w)), with_clock_read w).

(** The model constructors draw their defaults in field order. *)
Definition new_User (username password_hash : string) (is_admin : bool) : App User.t :=
  id ← uuid_uuid4;
  created_at ← datetime_now;
  mret (User.mk id username password_hash is_admin created_at).

Definition new_Message (chat_id sender content message_type : string)
    (image_url : option string) (is_admin_response : bool) : App Message.t :=
  id ← uuid_uuid4;
  timestamp ← datetime_now;
  mret (Message.mk id chat_id sender content message_type image_url timestamp
          is_admin_response).

Definition new_Chat (user_id username : string) : App Chat.t :=
  id ← uuid_uuid4;
  created_at ← datetime_now;
  last_message_at ← datetime_now;
  mret (Chat.mk id user_id username created_at last_message_at false).

Definition hash_password (password : string) : string :=
  SHA256.hexdigest password.

Definition verify_password (password hashed : string) : bool :=
  bool_decide (hash_password password = hashed).

Definition create_token (user_id : string) (is_admin : bool) : jwt.Token :=
  let payload := {| jwt.user_id := user_id; jwt.is_admin := is_admin; jwt.exp := None |} in
  jwt.encode payload JWT_SECRET "HS256".

(** The dependency of every protected route.  Decoding reads the clock
    once, to check the expiry claim. *)
Definition verify_token (credentials : jwt.Token) : App jwt.Payload :=
  now ← datetime_now;
  match jwt.decode now credentials JWT_SECRET ["HS256"] with
  | jwt.Claims payload => mret payload
  | jwt.ExpiredSignatureError => raise (HTTPException 401 "Token expired")
  | jwt.InvalidTokenError => raise (HTTPException 401 "Invalid token")
  end.

(** [chat.send_message(user_message)] of the client library: one call
    of the hosted model, recorded in [llm_calls]. *)
Definition chat_send_message (chat : LlmChat) (user_message : UserMessage) : App LlmObject := λ w,
  let w' := with_llm_call (chat, user_message) w in
  match llm E (length (llm_calls w)) chat user_message with
  | Responded r => (Return r, w')
  | Failed e => (Raise (LlmError e), w')
  end.

(** [response.strip()]. *)
Definition response_strip (response : LlmObject) : App string :=
  match response with
  | Str s => mret (Py.strip s)
  | NotStr => raise AttributeError
  end.

(** One line of the context: the f-string of the comprehension. *)
Definition context_line (msg : HistoryEntry) : string :=
  (if bool_decide (h_sender msg = "user") then "Utente" else "Sebastian")
  +:+ ": " +:+ h_content msg.

(** The text sent to the model: [prompt] as the body builds it. *)
Definition build_prompt (message : string) (chat_history : list HistoryEntry)
    (image_url : option string) : string :=
  let prompt := message in
  let prompt :=
    match image_url with
    | Some url =>
        if Py.truthy url then
          prompt +:+ nl +:+ nl +:+ "*L'utente ha condiviso un'immagine: " +:+ url +:+ "*" +:+ nl
          +:+ "Ti prego di commentare questa immagine con il tuo stile elegante e raffinato, mio caro Sebastian."
        else prompt
    | None => prompt
    end in
  match chat_history with
  | [] => prompt
  | _ :: _ =>
      let context := Py.join nl (context_line <$> Py.last_n 6 chat_history) in
      "Contesto della conversazione:" +:+ nl +:+ context +:+ nl +:+ nl
      +:+ "Nuovo messaggio: " +:+ prompt
  end.

(** The [LlmChat] object of the generator: the session id is derived
    from the first 50 characters of the message. *)
Definition persona_chat (message : string) : LlmChat :=
  let session_id :=
    "sebastian_chat_" +:+ Py.str_int (hash E (Py.prefix_chars 50 message)) in
  {| api_key := EMERGENT_LLM_KEY E;
     session_id := session_id;
     llm_system_message := system_message;
     provider := "openai";
     model := "gpt-5" |}.

(** The whole body runs inside [try ... except Exception]; the handler
    logs the exception (logging is not part of the world) and returns
    the fallback. *)
Definition get_sebastian_ai_response (message : string) (chat_history : list HistoryEntry)
    (image_url : option string) : App string :=
  try_except
    (let chat := persona_chat message in
     let prompt := build_prompt message chat_history image_url in
     let user_message := {| text := prompt |} in
     response ← chat_send_message chat user_message;
     response_strip response)
    (λ e, mret fallback_response).

(** *** Routes *)

Definition register (user : UserCreate) : App AuthResponse :=
  existing_user ← get (λ w, Mongo.find_one (λ u, User.username u = uc_username user) (users w));
  match existing_user with
  | Some _ => raise (HTTPException 400 "Username already exists")
  | None =>
      user_obj ← new_User (uc_username user) (hash_password (uc_password user)) false;
      modify (with_users (Mongo.insert_one user_obj));;
      let token := create_token (User.id user_obj) (User.is_admin user_obj) in
      mret {| token := token;
              user := {| ui_id := User.id user_obj;
                         ui_username := User.username user_obj;
                         ui_is_admin := User.is_admin user_obj |} |}
  end.

Definition login (user : UserLogin) : App AuthResponse :=
  db_user ← get (λ w, Mongo.find_one (λ u, User.username u = ul_username user) (users w));
  match db_user with
  | None => raise (HTTPException 401 "Invalid credentials")
  | Some db_user =>
      if negb (verify_password (ul_password user) (User.password_hash db_user)) then
        raise (HTTPException 401 "Invalid credentials")
      else
        let token := create_token (User.id db_user) (User.is_admin db_user) in
        mret {| token := token;
                user := {| ui_id := User.id db_user;
                           ui_username := User.username db_user;
                           ui_is_admin := User.is_admin db_user |} |}
  end.

Definition admin_login (user : UserLogin) : App AuthResponse :=
  if bool_decide (ul_username user = "admin") && bool_decide (ul_password user = "sebastian_admin") then
    admin_user ← get (λ w, Mongo.find_one (λ u, User.username u = "admin") (users w));
    admin_user ←
      match admin_user with
      | Some u => mret u
      | None =>
          admin_obj ← new_User "admin" (hash_password "sebastian_admin") true;
          modify (with_users (Mongo.insert_one admin_obj));;
          mret admin_obj
      end;
    let token := create_token (User.id admin_user) true in
    mret {| token := token;
            user := {| ui_id := User.id admin_user;
                       ui_username := User.username admin_user;
                       ui_is_admin := true |} |}
  else raise (HTTPException 401 "Invalid admin credentials").

Definition get_or_create_chat (credentials : jwt.Token) : App Chat.t :=
  user ← verify_token credentials;
  existing_chat ← get (λ w, Mongo.find_one (λ c, Chat.user_id c = jwt.user_id user) (chats w));
  match existing_chat with
  | Some c => mret c
  | None =>
      user_data ← get (λ w, Mongo.find_one (λ u, User.id u = jwt.user_id user) (users w));
      match user_data with
      | None => raise TypeError
      | Some user_data =>
          chat_obj ← new_Chat (jwt.user_id user) (User.username user_data);
          modify (with_chats (Mongo.insert_one chat_obj));;
          mret chat_obj
      end
  end.

Definition get_messages (chat_id : string) (credentials : jwt.Token) : App (list Message.t) :=
  user ← verify_token credentials;
  msgs ← get (λ w,
    Mongo.to_list 1000
      (Mongo.sort_asc Message.timestamp
         (Mongo.find (λ m, Message.chat_id m = chat_id) (messages w))));
  mret msgs.

(** The history both message routes hand to the generator. *)
Definition recent_history (chat_id : string) : App (list HistoryEntry) :=
  recent_messages ← get (λ w,
    Mongo.to_list 10
      (Mongo.limit 10
         (Mongo.sort_desc Message.timestamp
            (Mongo.find (λ m, Message.chat_id m = chat_id) (messages w)))));
  mret ((λ msg, {| h_sender := Message.sender msg; h_content := Message.content msg |})
          <$> reverse (Py.but_last recent_messages)).

Definition send_message (chat_id : string) (message : MessageCreate)
    (credentials : jwt.Token) : App SuccessResponse :=
  user ← verify_token credentials;
  chat ← get (λ w, Mongo.find_one (λ c, Chat.id c = chat_id) (chats w));
  match chat with
  | None => raise (HTTPException 404 "Chat not found")
  | Some chat =>
      user_message ← new_Message chat_id "user" (mc_content message)
                        (mc_message_type message) None false;
      modify (with_messages (Mongo.insert_one user_message));;
      now ← datetime_now;
      modify (with_chats (Mongo.update_one (λ c, Chat.id c = chat_id)
                            (Chat.set_last_message_at now)));;
      (if negb (Chat.admin_active chat) then
         chat_history ← recent_history chat_id;
         sebastian_response ← get_sebastian_ai_response (mc_content message) chat_history
                                 (Message.image_url user_message);
         bot_message ← new_Message chat_id "sebastian" sebastian_response "text" None false;
         modify (with_messages (Mongo.insert_one bot_message))
       else mret tt);;
      mret {| success := true |}
  end.

(** [aiofiles.open(UPLOADS_DIR / name, 'wb')]: the file it opens, made
    or emptied by the call.  [UPLOADS_DIR] is made at start-up and only
    [upload_image] writes to it, so it holds files and no directory: a
    name of one component opens a file of the directory, and a longer one
    has no directory to go through.  An embedded NUL is refused before the
    system is asked.  A full or read-only disk is not modelled. *)
Definition aiofiles_open (name : string) : App Opened :=
  let elsewhere : App Opened :=
    if open_outside E name then mret Elsewhere else raise OSError in
  if Py.contains Ascii.zero name then raise ValueError
  else if Path.is_absolute name then elsewhere
  else
    match Path.parts name with
    | [] => raise OSError
    | [f] =>
        if bool_decide (f = "..") then raise OSError
        else if (NAME_MAX <? String.length f)%nat then raise OSError
        else mret (InUploads f)
    | d :: _ => if bool_decide (d = "..") then elsewhere else raise OSError
    end.

(** [f.write(content)] on the opened file. *)
Definition f_write (f : Opened) (content : list Init.Byte.byte) : App unit :=
  match f with
  | InUploads name => modify (with_uploads (insert name content))
  | Elsewhere => mret tt
  end.

(** A part without a declared type has [None] for [content_type], and
    [.startswith] on it raises.  The file is written to the uploads
    directory under its generated name before the chat is looked up. *)
Definition upload_image (chat_id : string) (file : UploadFile) (caption : string)
    (credentials : jwt.Token) : App UploadResponse :=
  user ← verify_token credentials;
  match content_type file with
  | None => raise AttributeError
  | Some declared =>
  if negb (Py.startswith declared "image/") then
    raise (HTTPException 400 "Only image files are allowed")
  else
    u ← uuid_uuid4;
    let unique_filename := u +:+ "." +:+ file_extension file in
    f ← aiofiles_open unique_filename;
    f_write f (file_bytes file);;
    let image_url := "/uploads/" +:+ unique_filename in
    chat ← get (λ w, Mongo.find_one (λ c, Chat.id c = chat_id) (chats w));
    match chat with
    | None => raise (HTTPException 404 "Chat not found")
    | Some chat =>
        user_message ← new_Message chat_id "user" (Py.or_else caption caption_placeholder)
                          "image" (Some image_url) false;
        modify (with_messages (Mongo.insert_one user_message));;
        now ← datetime_now;
        modify (with_chats (Mongo.update_one (λ c, Chat.id c = chat_id)
                              (Chat.set_last_message_at now)));;
        (if negb (Chat.admin_active chat) then
           chat_history ← recent_history chat_id;
           let image_prompt := "L'utente ha condiviso un'immagine" in
           let image_prompt :=
             if Py.truthy caption
             then image_prompt +:+ " con la didascalia: '" +:+ caption +:+ "'"
             else image_prompt in
           sebastian_response ← get_sebastian_ai_response image_prompt chat_history
                                   (Some image_url);
           bot_message ← new_Message chat_id "sebastian" sebastian_response "text" None false;
           modify (with_messages (Mongo.insert_one bot_message))
         else mret tt);;
        mret {| up_success := true; up_image_url := image_url |}
    end
  end.

Definition get_all_chats (credentials : jwt.Token) : App (list Chat.t) :=
  user ← verify_token credentials;
  if negb (jwt.is_admin user) then raise (HTTPException 403 "Admin access required")
  else
    cs ← get (λ w, Mongo.to_list 1000 (Mongo.sort_desc Chat.last_message_at (chats w)));
    mret cs.

Definition admin_respond (chat_id : string) (message : AdminMessage)
    (credentials : jwt.Token) : App SuccessResponse :=
  user ← verify_token credentials;
  if negb (jwt.is_admin user) then raise (HTTPException 403 "Admin access required")
  else
    admin_message ← new_Message chat_id "sebastian" (am_content message) "text" None true;
    modify (with_messages (Mongo.insert_one admin_message));;
    now ← datetime_now;
    modify (with_chats (Mongo.update_one (λ c, Chat.id c = chat_id)
                          (Chat.set_last_message_at now)));;
    mret {| success := true |}.

Definition toggle_admin_active (chat_id : string) (credentials : jwt.Token) : App ToggleResponse :=
  user ← verify_token credentials;
  if negb (jwt.is_admin user) then raise (HTTPException 403 "Admin access required")
  else
    chat ← get (λ w, Mongo.find_one (λ c, Chat.id c = chat_id) (chats w));
    match chat with
    | None => raise (HTTPException 404 "Chat not found")
    | Some chat =>
        let new_status := negb (Chat.admin_active chat) in
        modify (with_chats (Mongo.update_one (λ c, Chat.id c = chat_id)
                              (Chat.set_admin_active new_status)));;
        mret {| tr_admin_active := new_status |}
    end.

End server.

(** ** Requests and runs of the server *)

Inductive Request :=
| Register (user : UserCreate)
| Login (user : UserLogin)
| AdminLogin (user : UserLogin)
| GetOrCreateChat (credentials : jwt.Token)
| GetMessages (chat_id : string) (credentials : jwt.Token)
| SendMessage (chat_id : string) (message : MessageCreate) (credentials : jwt.Token)
| UploadImage (chat_id : string) (file : UploadFile) (caption : string) (credentials : jwt.Token)
| GetAllChats (credentials : jwt.Token)
| AdminRespond (chat_id : string) (message : AdminMessage) (credentials : jwt.Token)
| ToggleAdminActive (chat_id : string) (credentials : jwt.Token).

Section runs.

Variable E : Env.

(** The world a request leaves behind, whatever it answers. *)
Definition handle (r : Request) (w : World) : World :=
  match r with
  | Register u => snd (register E u w)
  | Login u => snd (login u w)
  | AdminLogin u => snd (admin_login E u w)
  | GetOrCreateChat t => snd (get_or_create_chat E t w)
  | GetMessages c t => snd (get_messages E c t w)
  | SendMessage c m t => snd (send_message E c m t w)
  | UploadImage c f cap t => snd (upload_image E c f cap t w)
  | GetAllChats t => snd (get_all_chats E t w)
  | AdminRespond c m t => snd (admin_respond E c m t w)
  | ToggleAdminActive c t => snd (toggle_admin_active E c t w)
  end.

(** Requests served one after the other. *)
Definition serve (rs : list Request) (w : World) : World :=
  fold_left (λ w r, handle r w) rs w.

(** The bearer token decodes to [p] at the next reading of the clock. *)
Definition valid_token (w : World) (tok : jwt.Token) (p : jwt.Payload) : Prop :=
  jwt.decode (utcnow E (clock_reads w)) tok JWT_SECRET ["HS256"] = jwt.Claims p.

(** The call the generator makes for a message, and what it answers
    from the outcome of that call. *)
Definition persona_call (message : string) (chat_history : list HistoryEntry)
    (image_url : option string) : LlmChat * UserMessage :=
  (persona_chat E message, {| text := build_prompt message chat_history image_url |}).


End runs.

(** The chat with a given id, as the routes look it up. *)
Definition chat_by_id (chat_id : string) (w : World) : option Chat.t :=
  Mongo.find_one (λ c, Chat.id c = chat_id) (chats w).

(** The user with a given name, as the credential routes look it up. *)
Definition user_by_name (name : string) (w : World) : option User.t :=
  Mongo.find_one (λ u, User.username u = name) (users w).

(** A computation that keeps every user where it is: the users
    collection afterwards starts with the one before. *)
Definition keeps_users {A} (m : App A) : Prop :=
  ∀ w, users w `prefix_of` users (snd (m w)).

(** A message the server wrote by itself: tagged "sebastian" and not
    marked as an operator's. *)
Definition automatic (m : Message.t) : Prop :=
  Message.sender m = "sebastian" ∧ Message.is_admin_response m = false.

(** ** A small deployment to run the handlers on

    Two registered users, the chat of one of them with a greeting in it,
    and a bearer token of the other. *)

Module Demo.

Definition env : Env :=
  {| uuid4 := λ n, "id-" +:+ pretty n;
     utcnow := λ n, 100 + Z.of_nat n;
     hash := λ _, 7;
     EMERGENT_LLM_KEY := None;
     llm := λ _ _ _, Responded (Str "  Ai vostri ordini. ");
     open_outside := λ _, false |}.


Definition alice : User.t :=
  User.mk "u-alice" "alice"
    "c592df4a86933b92addc9842402ddf198c638ea9be58916ee6e3734e1e3152f8" false 1.

Definition bob : User.t :=
  User.mk "u-bob" "bob"
    "ba7816bf8f01cfea414140de5dae2223b00361a396177a9cb410ff61f20015ad" false 2.

Definition alice_chat : Chat.t := Chat.mk "c-alice" "u-alice" "alice" 3 4 false.

Definition greeting : Message.t :=
  Message.mk "m-1" "c-alice" "sebastian" "Benvenuto." "text" None 4 false.

Definition world : World :=
  {| users := [alice; bob];
     chats := [alice_chat];
     messages := [greeting];
     uploads := ∅;
     llm_calls := [];
     uuids_drawn := 0;
     clock_reads := 0 |}.

(** The same deployment with the operator in charge of the chat. *)
Definition world_operated : World :=
  with_chats (λ _, [Chat.set_admin_active true alice_chat]) world.

Definition bob_claims : jwt.Payload :=
  {| jwt.user_id := "u-bob"; jwt.is_admin := false; jwt.exp := None |}.
Definition bob_token : jwt.Token := create_token "u-bob" false.

Definition admin_claims : jwt.Payload :=
  {| jwt.user_id := "u-admin"; jwt.is_admin := true; jwt.exp := None |}.
Definition admin_token : jwt.Token := create_token "u-admin" true.

Definition hello : MessageCreate := {| mc_content := "hi"; mc_message_type := "text" |}.

Definition photo : UploadFile :=
  {| content_type := Some "image/png"; filename := "cat.png"; file_bytes := [Init.Byte.x89; Init.Byte.x50] |}.

Definition notes : UploadFile :=
  {| content_type := Some "text/plain"; filename := "notes.txt"; file_bytes := [Init.Byte.x68] |}.

(** An image whose file name carries a separator after its last dot. *)
Definition nested : UploadFile :=
  {| content_type := Some "image/png"; filename := "cat.png/x"; file_bytes := [Init.Byte.x89; Init.Byte.x50] |}.

(** A file part that declares no type. *)
Definition untyped : UploadFile :=
  {| content_type := None; filename := "cat.png"; file_bytes := [Init.Byte.x89; Init.Byte.x50] |}.




End Demo.

(** ** What a run of requests preserves *)

(** A computation whose final world is related to its initial one. *)
Definition keeps (R : relation World) {A} (m : App A) : Prop :=
  ∀ w, R w (snd (m w)).

(** Messages are only appended. *)
Definition messages_grow : relation World :=
  λ w w', messages w `prefix_of` messages w'.

(** What identifies a chat and its owner, and what the handoff reads. *)
Definition chat_owner (c : Chat.t) : string * string := (Chat.id c, Chat.user_id c).
Definition chat_flag (c : Chat.t) : string * bool := (Chat.id c, Chat.admin_active c).

(** Chats keep their place, id and owner; new ones come at the end. *)
Definition chats_grow : relation World :=
  λ w w', (chat_owner <$> chats w) `prefix_of` (chat_owner <$> chats w').

(** Chats keep their place, id and handoff flag. *)
Definition flags_grow : relation World :=
  λ w w', (chat_flag <$> chats w) `prefix_of` (chat_flag <$> chats w').

Definition is_toggle (r : Request) : bool :=
  match r with
  | ToggleAdminActive _ _ => true
  | _ => false
  end.

(** A relation the bookkeeping of a request cannot break: it ignores the
    counters, the call log, the users and the uploads. *)
Class Bookkeeping (R : relation World) := {
  bk_preorder :: PreOrder R;
  bk_uuid : ∀ w, R w (with_uuid_drawn w);
  bk_clock : ∀ w, R w (with_clock_read w);
  bk_llm : ∀ c w, R w (with_llm_call c w);
  bk_users : ∀ f w, R w (with_users f w);
  bk_uploads : ∀ f w, R w (with_uploads f w)
}.

(** The bearer token does not decode at the next reading of the clock. *)
Definition rejected_token (E : Env) (w : World) (tok : jwt.Token) : Prop :=
  ∀ p, jwt.decode (utcnow E (clock_reads w)) tok JWT_SECRET ["HS256"] ≠ jwt.Claims p.

(** The messages of a chat, as the listing and the history select them. *)
Definition chat_messages (chat_id : string) (w : World) : list Message.t :=
  Mongo.find (λ m, Message.chat_id m = chat_id) (messages w).

(** A chat long enough to reach the cap of the listing: 1001 messages
    with timestamps 0 to 1000. *)
Definition archived_message (n : nat) : Message.t :=
  Message.mk ("m-" +:+ pretty n) "c-alice" "user" "Ancora qui." "text" None
    (Z.of_nat n) false.

Definition archive_world : World :=
  with_messages (λ _, archived_message <$> seq 0 1001) Demo.world.

(** The deployment before anything was said in the chat. *)
Definition quiet_world : World := with_messages (λ _, []) Demo.world.

(** The two ways a stored message is tagged: a user's message, never
    marked as an operator's, or a message shown as the persona's. *)
Definition well_tagged (m : Message.t) : Prop :=
  (Message.sender m = "user" ∧ Message.is_admin_response m = false)
  ∨ Message.sender m = "sebastian".

(** * Properties *)

(** ** The built-ins and the hash on known inputs *)

Example sha256_constants :
  List.nth 0 SHA256.K 0 = 0x428a2f98 /\ List.nth 63 SHA256.K 0 = 0xc67178f2 /\
  List.nth 0 SHA256.H0 0 = 0x6a09e667 /\ List.nth 7 SHA256.H0 0 = 0x5be0cd19 /\
  length SHA256.K = 64%nat.
Proof. vm_compute. repeat split; reflexivity. Qed.

Example sha256_abc :
  SHA256.hexdigest "abc"
  = "ba7816bf8f01cfea414140de5dae2223b00361a396177a9cb410ff61f20015ad".
Proof. vm_compute. reflexivity. Qed.

Example sha256_empty :
  SHA256.hexdigest EmptyString
  = "e3b0c44298fc1c149afbf4c8996fb92427ae41e4649b934ca495991b7852b855".
Proof. vm_compute. reflexivity. Qed.

Example sha256_two_blocks :
  SHA256.hexdigest "aaaaaaaaaaaaaaaaaaaaaaaaaaaaaaaaaaaaaaaaaaaaaaaaaaaaaaaaaaaaaaaaaaaaaa"
  = "6bd5e5034855a11241f0dee8fc72850ffd9955b28347a86428b5fa19119f6ad0".
Proof. vm_compute. reflexivity. Qed.

Example strip_example :
  Py.strip (String (ascii_of_nat 10) "  ciao mondo " +:+ Py.bytes [194; 160; 9]%nat) = "ciao mondo".
Proof. vm_compute. reflexivity. Qed.

Example prefix_chars_example :
  Py.prefix_chars 2 (Py.bytes [195; 160; 97; 98]%nat) = Py.bytes [195; 160; 97]%nat.
Proof. vm_compute. reflexivity. Qed.

Example split_example :
  Py.split "." "a.tar.gz" = ["a"; "tar"; "gz"] /\ Py.last_item (Py.split "." "photo") = "photo".
Proof. split; reflexivity. Qed.

(** ** Running a handler *)

Ltac step := cbv beta iota zeta delta
  [mbind App_bind mret App_ret get modify raise verify_token datetime_now uuid_uuid4
   f_write new_Message new_User new_Chat recent_history chat_by_id user_by_name
   with_users with_chats with_messages with_uploads with_llm_call with_uuid_drawn
   with_clock_read];
  cbn [users chats messages uploads llm_calls uuids_drawn clock_reads negb].

Ltac authenticate H := unfold valid_token in H; step; rewrite H; step.

Section generator.

Variable E : Env.

(** The generator never raises: it makes its one call and answers the
    stripped text, or the fallback when the call fails. *)
Lemma get_sebastian_ai_response_run message chat_history image_url w :
  get_sebastian_ai_response E message chat_history image_url w =
  (Return (match llm E (length (llm_calls w)) (persona_chat E message)
                   {| text := build_prompt message chat_history image_url |} with
           | Responded (Str s) => Py.strip s
           | _ => fallback_response
           end),
   with_llm_call (persona_call E message chat_history image_url) w).
Proof.
  unfold get_sebastian_ai_response, try_except, mbind, App_bind, chat_send_message,
    persona_call.
  cbn zeta.
  destruct (llm E _ _ _) as [[s|]|e]; reflexivity.
Qed.

End generator.

(** ** File names *)

Section extension.

Variable sep : ascii.

Lemma split_not_nil s : Py.split sep s ≠ [].
Proof.
  destruct s as [|c s]; cbn; [discriminate|].
  destruct (Ascii.eqb c sep); [discriminate|].
  destruct (Py.split sep s); discriminate.
Qed.

Lemma split_without_separator s :
  Py.contains sep s = false → Py.split sep s = [s].
Proof.
  induction s as [|c s IH]; cbn; [reflexivity|].
  destruct (Ascii.eqb c sep); [discriminate|].
  intros H. rewrite (IH H). reflexivity.
Qed.

Lemma split_with_separator s :
  Py.contains sep s = true → ∃ a b l, Py.split sep s = a :: b :: l.
Proof.
  induction s as [|c s IH]; cbn; [discriminate|].
  destruct (Ascii.eqb c sep).
  - intros _. pose proof (split_not_nil s).
    destruct (Py.split sep s) as [|b l]; [congruence|]. eauto.
  - intros H. destruct (IH H) as (a & b & l & ->). eauto.
Qed.

Lemma append_cons c (s t : string) : String c s +:+ t = String c (s +:+ t).
Proof. reflexivity. Qed.

(** [s.split(sep)[-1]] is what follows the last separator of [s]. *)
Lemma split_last_is_suffix s :
  Py.contains sep s = true →
  ∃ stem, s = stem +:+ String sep (Py.last_item (Py.split sep s)) ∧
          Py.contains sep (Py.last_item (Py.split sep s)) = false.
Proof.
  unfold Py.last_item.
  induction s as [|c s IH]; cbn [Py.contains Py.split]; [discriminate|].
  destruct (Ascii.eqb c sep) eqn:Hc.
  - intros _. apply Ascii.eqb_eq in Hc. subst c.
    destruct (Py.contains sep s) eqn:Hs.
    + destruct (IH eq_refl) as (stem & Heq & Hno).
      destruct (split_with_separator s Hs) as (a & b & l & Hsplit).
      exists (String sep stem). rewrite Hsplit in *. cbn [List.last] in *.
      split; [|exact Hno]. rewrite append_cons. f_equal. exact Heq.
    + rewrite (split_without_separator s Hs). cbn.
      exists EmptyString. split; [reflexivity|exact Hs].
  - intros Hs. destruct (IH Hs) as (stem & Heq & Hno).
    destruct (split_with_separator s Hs) as (a & b & l & Hsplit).
    exists (String c stem). rewrite Hsplit in *. cbn [List.last] in *.
    split; [|exact Hno]. rewrite append_cons. f_equal. exact Heq.
Qed.

End extension.

(** ** Writing to the uploads directory *)

Section uploads_directory.

Variable E : Env.

Lemma not_absolute_without_separator name :
  Py.contains "/" name = false → Path.is_absolute name = false.
Proof.
  unfold Path.is_absolute. destruct name as [|c name]; [reflexivity|].
  cbn [Py.contains Py.startswith]. rewrite (Ascii.eqb_sym "/" c).
  destruct (Ascii.eqb c "/"); [discriminate|reflexivity].
Qed.

Lemma parts_without_separator name :
  Py.contains "/" name = false → name ≠ EmptyString → name ≠ "." →
  Path.parts name = [name].
Proof.
  intros Hsep Hne Hdot. unfold Path.parts.
  rewrite (split_without_separator _ _ Hsep).
  rewrite filter_cons_True by (split; assumption). reflexivity.
Qed.

(** A plain file name opens the file of that very name. *)
Lemma aiofiles_open_plain name w :
  plain_file_name name = true →
  aiofiles_open E name w = (Return (InUploads name), w).
Proof.
  unfold plain_file_name. intros H.
  apply andb_prop in H as [H Hlen]. apply andb_prop in H as [H Hdots].
  apply andb_prop in H as [Hsep Hnul].
  apply negb_true_iff in Hsep, Hnul, Hdots. apply bool_decide_eq_false in Hdots.
  apply Nat.leb_le in Hlen.
  unfold aiofiles_open. rewrite Hnul, (not_absolute_without_separator _ Hsep).
  rewrite parts_without_separator; [|exact Hsep|..];
    [|intros ->; apply Hdots; set_solver..].
  rewrite bool_decide_eq_false_2 by (intros ->; apply Hdots; set_solver).
  replace (NAME_MAX <? String.length name)%nat with false
    by (symmetry; apply Nat.ltb_ge; exact Hlen).
  reflexivity.
Qed.

(** Opening a file writes no document and no file, and a failure of it
    is the refused NUL or an error of the system. *)
Lemma aiofiles_open_pure name w :
  snd (aiofiles_open E name w) = w ∧
  ∀ e, fst (aiofiles_open E name w) = Raise e → e = ValueError ∨ e = OSError.
Proof.
  unfold aiofiles_open.
  destruct (Py.contains Ascii.zero name); [cbn; split; [reflexivity|intros e [= <-]; auto]|].
  assert (Helse : snd ((if open_outside E name then mret Elsewhere else raise OSError) w) = w
                  ∧ ∀ e, fst ((if open_outside E name then mret Elsewhere else raise OSError) w)
                         = Raise e → e = ValueError ∨ e = OSError).
  { destruct (open_outside E name); cbn; (split; [reflexivity|]); intros e [= <-]; auto. }
  destruct (Path.is_absolute name); [exact Helse|].
  destruct (Path.parts name) as [|f [|d l]].
  - cbn; split; [reflexivity|intros e [= <-]; auto].
  - destruct (bool_decide (f = ".."));
      [cbn; split; [reflexivity|intros e [= <-]; auto]|].
    destruct (NAME_MAX <? String.length f)%nat; cbn;
      (split; [reflexivity|]); intros e [= <-]; auto.
  - destruct (bool_decide (f = "..")); [exact Helse|].
    cbn; split; [reflexivity|intros e [= <-]; auto].
Qed.

End uploads_directory.

(** ** The handoff between the persona and the operator *)

Section handoff.

Variable E : Env.

(** C1: a text message sent to an existing chat is always stored, and
    so is an image whose part declares an image type and whose generated
    file name the uploads directory takes; a reply tagged "sebastian" and
    not marked as an operator's follows it exactly when the chat's
    admin-active flag, as read at the start of the request, is false.
    With the flag set nothing follows the user's message and the model is
    not called. *)
Theorem inbound_message_handoff (w : World) (chat_id : string) (chat : Chat.t)
    (tok : jwt.Token) (p : jwt.Payload) (message : MessageCreate)
    (file : UploadFile) (caption : string) :
  valid_token E w tok p →
  chat_by_id chat_id w = Some chat →
  (∃ w' user_msg replies,
      send_message E chat_id message tok w = (Return {| success := true |}, w') ∧
      messages w' = messages w ++ user_msg :: replies ∧
      Message.chat_id user_msg = chat_id ∧
      Message.sender user_msg = "user" ∧
      Message.content user_msg = mc_content message ∧
      Message.message_type user_msg = mc_message_type message ∧
      if Chat.admin_active chat
      then replies = [] ∧ llm_calls w' = llm_calls w
      else ∃ bot call, replies = [bot] ∧ automatic bot ∧
             Message.chat_id bot = chat_id ∧ llm_calls w' = llm_calls w ++ [call])
  ∧
  (∀ declared,
      content_type file = Some declared →
      Py.startswith declared "image/" = true →
      plain_file_name (uuid4 E (uuids_drawn w) +:+ "." +:+ file_extension file) = true →
      ∃ w' url user_msg replies,
        upload_image E chat_id file caption tok w
        = (Return {| up_success := true; up_image_url := url |}, w') ∧
        messages w' = messages w ++ user_msg :: replies ∧
        Message.chat_id user_msg = chat_id ∧
        Message.sender user_msg = "user" ∧
        Message.message_type user_msg = "image" ∧
        Message.image_url user_msg = Some url ∧
        if Chat.admin_active chat
        then replies = [] ∧ llm_calls w' = llm_calls w
        else ∃ bot call, replies = [bot] ∧ automatic bot ∧
               Message.chat_id bot = chat_id ∧ llm_calls w' = llm_calls w ++ [call]).
Proof.
  intros Hv Hc. unfold chat_by_id in Hc. split.
  - unfold send_message. authenticate Hv. rewrite Hc. step.
    destruct (Chat.admin_active chat); step.
    + do 3 eexists. split; [reflexivity|]. cbn.
      unfold Mongo.insert_one. repeat split; reflexivity.
    + rewrite get_sebastian_ai_response_run. step.
      do 3 eexists. split; [reflexivity|]. cbn.
      unfold Mongo.insert_one. rewrite <- app_assoc.
      repeat split; try reflexivity.
      do 2 eexists. repeat split; reflexivity.
  - intros declared Hct Himg Hname.
    unfold upload_image. authenticate Hv. rewrite Hct, Himg. step.
    rewrite (aiofiles_open_plain E _ _ Hname). step. rewrite Hc. step.
    destruct (Chat.admin_active chat); step.
    + do 4 eexists. split; [reflexivity|]. cbn.
      unfold Mongo.insert_one. repeat split; reflexivity.
    + rewrite get_sebastian_ai_response_run. step.
      do 4 eexists. split; [reflexivity|]. cbn.
      unfold Mongo.insert_one. rewrite <- app_assoc.
      repeat split; try reflexivity.
      do 2 eexists. repeat split; reflexivity.
Qed.

End handoff.

Lemma inbound_message_handoff_witness :
  valid_token Demo.env Demo.world Demo.bob_token Demo.bob_claims ∧
  chat_by_id "c-alice" Demo.world = Some Demo.alice_chat ∧
  chat_by_id "c-alice" Demo.world_operated
  = Some (Chat.set_admin_active true Demo.alice_chat) ∧
  content_type Demo.photo = Some "image/png" ∧
  Py.startswith "image/png" "image/" = true ∧
  plain_file_name (uuid4 Demo.env (uuids_drawn Demo.world) +:+ "." +:+
                   file_extension Demo.photo) = true ∧
  (∃ w', send_message Demo.env "c-alice" Demo.hello Demo.bob_token Demo.world
         = (Return {| success := true |}, w') ∧
         length (messages w') = 3%nat) ∧
  (∃ w', send_message Demo.env "c-alice" Demo.hello Demo.bob_token Demo.world_operated
         = (Return {| success := true |}, w') ∧
         length (messages w') = 2%nat ∧
         llm_calls w' = []) ∧
  (∃ w' url, upload_image Demo.env "c-alice" Demo.photo EmptyString Demo.bob_token
               Demo.world
             = (Return {| up_success := true; up_image_url := url |}, w') ∧
             length (messages w') = 3%nat) ∧
  (∃ w' url, upload_image Demo.env "c-alice" Demo.photo EmptyString Demo.bob_token
               Demo.world_operated
             = (Return {| up_success := true; up_image_url := url |}, w') ∧
             length (messages w') = 2%nat ∧
             llm_calls w' = []).
Proof.
  assert (H1 : valid_token Demo.env Demo.world Demo.bob_token Demo.bob_claims)
    by reflexivity.
  assert (H2 : chat_by_id "c-alice" Demo.world = Some Demo.alice_chat) by reflexivity.
  assert (H2' : chat_by_id "c-alice" Demo.world_operated
                = Some (Chat.set_admin_active true Demo.alice_chat)) by reflexivity.
  assert (H3 : content_type Demo.photo = Some "image/png") by reflexivity.
  assert (H4 : Py.startswith "image/png" "image/" = true) by reflexivity.
  assert (H5 : plain_file_name (uuid4 Demo.env (uuids_drawn Demo.world) +:+ "." +:+
                                file_extension Demo.photo) = true) by reflexivity.
  destruct (inbound_message_handoff Demo.env Demo.world "c-alice" Demo.alice_chat
              Demo.bob_token Demo.bob_claims Demo.hello Demo.photo EmptyString H1 H2)
    as [(w' & um & rs & Hrun & Hm & _ & _ & _ & _ & Hrep) Hup].
  destruct (Hup _ H3 H4 H5) as (u' & url & im & irs & Hurun & Him & _ & _ & _ & _ & Hirep).
  destruct (inbound_message_handoff Demo.env Demo.world_operated "c-alice"
              (Chat.set_admin_active true Demo.alice_chat)
              Demo.bob_token Demo.bob_claims Demo.hello Demo.photo EmptyString H1 H2')
    as [(v' & vm & vs & Hrun' & Hm' & _ & _ & _ & _ & Hrep') Hup'].
  destruct (Hup' _ H3 H4 H5)
    as (x' & url' & jm & js & Hurun' & Him' & _ & _ & _ & _ & Hirep').
  cbn in Hrep. destruct Hrep as (bot & call & Hrs & _).
  cbn in Hrep'. destruct Hrep' as (Hvs & Hcalls).
  cbn in Hirep. destruct Hirep as (ibot & icall & Hirs & _).
  cbn in Hirep'. destruct Hirep' as (Hjs & Hicalls).
  split; [exact H1|]. split; [exact H2|]. split; [exact H2'|]. split; [exact H3|].
  split; [exact H4|]. split; [exact H5|].
  split; [|split; [|split]].
  - exists w'. split; [exact Hrun|]. rewrite Hm, Hrs. reflexivity.
  - exists v'. split; [exact Hrun'|]. split; [|exact Hcalls].
    rewrite Hm', Hvs. reflexivity.
  - exists u', url. split; [exact Hurun|]. rewrite Him, Hirs. reflexivity.
  - exists x', url'. split; [exact Hurun'|]. split; [|exact Hicalls].
    rewrite Him', Hjs. reflexivity.
Defined.

(** The claim C1 as it is worded fails for an image whose file cannot be
    stored: the file name "cat.png/x" gives the generated name a second
    component, the uploads directory has no directory to hold it, and the
    request ends in the error of [open] with no message stored. *)
Lemma inbound_image_not_persisted :
  valid_token Demo.env Demo.world Demo.bob_token Demo.bob_claims ∧
  chat_by_id "c-alice" Demo.world = Some Demo.alice_chat ∧
  content_type Demo.nested = Some "image/png" ∧
  ∃ w', upload_image Demo.env "c-alice" Demo.nested EmptyString Demo.bob_token Demo.world
        = (Raise OSError, w') ∧
        messages w' = messages Demo.world ∧
        uploads w' = uploads Demo.world.
Proof.
  split; [reflexivity|]. split; [reflexivity|]. split; [reflexivity|].
  eexists. split; [vm_compute; reflexivity|]. split; reflexivity.
Qed.

(** ** The fallback of the persona response generator *)

Section fallback.

Variable E : Env.


End fallback.


(** ** Media ingestion *)


Section media.

Variable E : Env.

Lemma or_else_placeholder caption :
  (caption = EmptyString → Py.or_else caption caption_placeholder = caption_placeholder) ∧
  (caption ≠ EmptyString → Py.or_else caption caption_placeholder = caption).
Proof.
  destruct caption; cbn; split; intros H; congruence.
Qed.

(** C7: an authenticated upload whose part declares a type that does
    not start with "image/" is refused with status 400 and nothing is
    stored, and one that declares an image type is never refused that
    way.  A part that declares no type is not refused with 400: the
    check fails on it with an unhandled AttributeError, nothing stored.
    An upload of a declared image type whose generated file name the
    uploads directory takes, to an existing chat, appends a message of
    kind "image" whose media reference is the non-empty path of the
    stored file; the stored name ends with what follows the last dot of
    the client's file name, or with "jpg" when that name has no dot; an
    empty caption is replaced by the placeholder. *)
Theorem upload_image_validates (w : World) (chat_id : string) (file : UploadFile)
    (caption : string) (tok : jwt.Token) (p : jwt.Payload) :
  valid_token E w tok p →
  (content_type file = None →
   upload_image E chat_id file caption tok w = (Raise AttributeError, with_clock_read w))
  ∧
  (∀ declared,
     content_type file = Some declared →
     Py.startswith declared "image/" = false →
     upload_image E chat_id file caption tok w
     = (Raise (HTTPException 400 "Only image files are allowed"), with_clock_read w))
  ∧
  (∀ declared,
     content_type file = Some declared →
     Py.startswith declared "image/" = true →
     fst (upload_image E chat_id file caption tok w)
     ≠ Raise (HTTPException 400 "Only image files are allowed"))
  ∧
  (∀ declared chat,
     content_type file = Some declared →
     Py.startswith declared "image/" = true →
     plain_file_name (uuid4 E (uuids_drawn w) +:+ "." +:+ file_extension file) = true →
     chat_by_id chat_id w = Some chat →
     ∃ w' url name ext user_msg replies,
       upload_image E chat_id file caption tok w
       = (Return {| up_success := true; up_image_url := url |}, w') ∧
       messages w' = messages w ++ user_msg :: replies ∧
       Message.message_type user_msg = "image" ∧
       Message.image_url user_msg = Some url ∧
       url ≠ EmptyString ∧
       url = "/uploads/" +:+ name ∧
       name = uuid4 E (uuids_drawn w) +:+ "." +:+ ext ∧
       uploads w' !! name = Some (file_bytes file) ∧
       (Py.contains "." (filename file) = true →
        ∃ stem, filename file = stem +:+ "." +:+ ext ∧ Py.contains "." ext = false) ∧
       (Py.contains "." (filename file) = false → ext = "jpg") ∧
       (caption = EmptyString → Message.content user_msg = caption_placeholder) ∧
       (caption ≠ EmptyString → Message.content user_msg = caption)).
Proof.
  intros Hv. split; [|split; [|split]].
  - intros Hct. unfold upload_image. authenticate Hv. rewrite Hct. reflexivity.
  - intros declared Hct Himg. unfold upload_image. authenticate Hv.
    rewrite Hct, Himg. reflexivity.
  - intros declared Hct Himg. unfold upload_image. authenticate Hv.
    rewrite Hct, Himg. step.
    match goal with |- context [aiofiles_open E ?n ?v] =>
      destruct (aiofiles_open_pure E n v) as [_ Hraise];
      destruct (aiofiles_open E n v) as [[f|e] v'] end.
    + destruct f; step;
        (destruct (Mongo.find_one _ _) as [chat|]; step; [|cbn; discriminate];
         destruct (Chat.admin_active chat); step;
           [|rewrite get_sebastian_ai_response_run]; cbn; discriminate).
    + cbn. destruct (Hraise e eq_refl) as [-> | ->]; discriminate.
  - intros declared chat Hct Himg Hname Hc. unfold chat_by_id in Hc.
    unfold upload_image. authenticate Hv. rewrite Hct, Himg. step.
    rewrite (aiofiles_open_plain E _ _ Hname). step. rewrite Hc. step.
    assert (Hext :
      (Py.contains "." (filename file) = true →
       ∃ stem, filename file = stem +:+ "." +:+ file_extension file
               ∧ Py.contains "." (file_extension file) = false)
      ∧ (Py.contains "." (filename file) = false → file_extension file = "jpg")).
    { unfold file_extension. split; intros Hdot; rewrite Hdot; [|reflexivity].
      apply split_last_is_suffix. exact Hdot. }
    destruct Hext as [Hext1 Hext2].
    destruct (or_else_placeholder caption) as [Hcap1 Hcap2].
    destruct (Chat.admin_active chat); step;
      [|rewrite get_sebastian_ai_response_run; step];
      (do 6 eexists; split; [reflexivity|]; cbn [messages uploads];
       unfold Mongo.insert_one; rewrite <- ?app_assoc;
       split; [reflexivity|];
       cbn [Message.message_type Message.image_url Message.content];
       split; [reflexivity|]; split; [reflexivity|];
       split; [discriminate|]; split; [reflexivity|]; split; [reflexivity|];
       split; [apply lookup_insert_eq|];
       split; [exact Hext1|]; split; [exact Hext2|];
       split; [exact Hcap1|exact Hcap2]).
Qed.

(** C10: an authenticated upload that declares an image type and whose
    generated file name the uploads directory takes, to a chat id that
    does not exist, is answered 404 after the bytes were written under
    that name in the uploads directory; no message is stored. *)
Theorem upload_to_unknown_chat_keeps_file (w : World) (chat_id : string)
    (file : UploadFile) (caption declared : string) (tok : jwt.Token) (p : jwt.Payload) :
  valid_token E w tok p →
  content_type file = Some declared →
  Py.startswith declared "image/" = true →
  plain_file_name (uuid4 E (uuids_drawn w) +:+ "." +:+ file_extension file) = true →
  chat_by_id chat_id w = None →
  ∃ w' name,
    upload_image E chat_id file caption tok w
    = (Raise (HTTPException 404 "Chat not found"), w') ∧
    name = uuid4 E (uuids_drawn w) +:+ "." +:+ file_extension file ∧
    uploads w' = <[name := file_bytes file]> (uploads w) ∧
    uploads w' !! name = Some (file_bytes file) ∧
    (uploads w !! name = None → uploads w' ≠ uploads w) ∧
    messages w' = messages w ∧
    chats w' = chats w.
Proof.
  intros Hv Hct Himg Hname Hc. unfold chat_by_id in Hc.
  unfold upload_image. authenticate Hv. rewrite Hct, Himg. step.
  rewrite (aiofiles_open_plain E _ _ Hname). step. rewrite Hc. step.
  do 2 eexists. split; [reflexivity|]. cbn [messages uploads chats].
  split; [reflexivity|]. split; [reflexivity|]. split; [apply lookup_insert_eq|].
  split; [|split; reflexivity].
  intros Hnone Heq. rewrite <- Heq, lookup_insert_eq in Hnone. discriminate.
Qed.

End media.

Lemma upload_image_validates_witness :
  valid_token Demo.env Demo.world Demo.bob_token Demo.bob_claims ∧
  content_type Demo.untyped = None ∧
  content_type Demo.notes = Some "text/plain" ∧
  Py.startswith "text/plain" "image/" = false ∧
  content_type Demo.photo = Some "image/png" ∧
  Py.startswith "image/png" "image/" = true ∧
  plain_file_name (uuid4 Demo.env (uuids_drawn Demo.world) +:+ "." +:+
                   file_extension Demo.photo) = true ∧
  chat_by_id "c-alice" Demo.world = Some Demo.alice_chat ∧
  upload_image Demo.env "c-alice" Demo.untyped EmptyString Demo.bob_token Demo.world
  = (Raise AttributeError, with_clock_read Demo.world) ∧
  upload_image Demo.env "c-alice" Demo.notes EmptyString Demo.bob_token Demo.world
  = (Raise (HTTPException 400 "Only image files are allowed"), with_clock_read Demo.world) ∧
  ∃ w' url name user_msg,
    upload_image Demo.env "c-alice" Demo.photo EmptyString Demo.bob_token Demo.world
    = (Return {| up_success := true; up_image_url := url |}, w') ∧
    url = "/uploads/" +:+ name ∧
    uploads w' !! name = Some (file_bytes Demo.photo) ∧
    Message.image_url user_msg = Some url ∧
    Message.content user_msg = caption_placeholder.
Proof.
  assert (H1 : valid_token Demo.env Demo.world Demo.bob_token Demo.bob_claims)
    by reflexivity.
  assert (H0 : content_type Demo.untyped = None) by reflexivity.
  assert (H2 : content_type Demo.notes = Some "text/plain") by reflexivity.
  assert (H2' : Py.startswith "text/plain" "image/" = false) by reflexivity.
  assert (H3 : content_type Demo.photo = Some "image/png") by reflexivity.
  assert (H3' : Py.startswith "image/png" "image/" = true) by reflexivity.
  assert (H5 : plain_file_name (uuid4 Demo.env (uuids_drawn Demo.world) +:+ "." +:+
                                file_extension Demo.photo) = true) by reflexivity.
  assert (H4 : chat_by_id "c-alice" Demo.world = Some Demo.alice_chat) by reflexivity.
  destruct (upload_image_validates Demo.env Demo.world "c-alice" Demo.untyped EmptyString
              Demo.bob_token Demo.bob_claims H1) as (Huntyped & _ & _ & _).
  destruct (upload_image_validates Demo.env Demo.world "c-alice" Demo.notes EmptyString
              Demo.bob_token Demo.bob_claims H1) as (_ & Hrefused & _ & _).
  destruct (upload_image_validates Demo.env Demo.world "c-alice" Demo.photo EmptyString
              Demo.bob_token Demo.bob_claims H1) as (_ & _ & _ & Haccepted).
  destruct (Haccepted _ Demo.alice_chat H3 H3' H5 H4)
    as (w' & url & name & ext & um & rs & Hrun & _ & _ & Hurl & _ & Hpath & _ & Hfile
        & _ & _ & Hcap & _).
  split; [exact H1|]. split; [exact H0|]. split; [exact H2|]. split; [exact H2'|].
  split; [exact H3|]. split; [exact H3'|]. split; [exact H5|]. split; [exact H4|].
  split; [exact (Huntyped H0)|].
  split; [exact (Hrefused _ H2 H2')|].
  exists w', url, name, um.
  split; [exact Hrun|]. split; [exact Hpath|]. split; [exact Hfile|].
  split; [exact Hurl|exact (Hcap eq_refl)].
Defined.

Lemma upload_to_unknown_chat_keeps_file_witness :
  valid_token Demo.env Demo.world Demo.bob_token Demo.bob_claims ∧
  content_type Demo.photo = Some "image/png" ∧
  Py.startswith "image/png" "image/" = true ∧
  plain_file_name (uuid4 Demo.env (uuids_drawn Demo.world) +:+ "." +:+
                   file_extension Demo.photo) = true ∧
  chat_by_id "c-nobody" Demo.world = None ∧
  ∃ w' name,
    upload_image Demo.env "c-nobody" Demo.photo "gatto" Demo.bob_token Demo.world
    = (Raise (HTTPException 404 "Chat not found"), w') ∧
    uploads w' !! name = Some (file_bytes Demo.photo) ∧
    uploads w' ≠ uploads Demo.world ∧
    messages w' = messages Demo.world.
Proof.
  assert (H1 : valid_token Demo.env Demo.world Demo.bob_token Demo.bob_claims)
    by reflexivity.
  assert (H2 : content_type Demo.photo = Some "image/png") by reflexivity.
  assert (H2' : Py.startswith "image/png" "image/" = true) by reflexivity.
  assert (H4 : plain_file_name (uuid4 Demo.env (uuids_drawn Demo.world) +:+ "." +:+
                                file_extension Demo.photo) = true) by reflexivity.
  assert (H3 : chat_by_id "c-nobody" Demo.world = None) by reflexivity.
  destruct (upload_to_unknown_chat_keeps_file Demo.env Demo.world "c-nobody" Demo.photo
              "gatto" "image/png" Demo.bob_token Demo.bob_claims H1 H2 H2' H4 H3)
    as (w' & name & Hrun & _ & _ & Hfile & Hfresh & Hm & _).
  split; [exact H1|]. split; [exact H2|]. split; [exact H2'|]. split; [exact H4|].
  split; [exact H3|].
  exists w', name.
  split; [exact Hrun|]. split; [exact Hfile|]. split; [|exact Hm].
  apply Hfresh. apply lookup_empty.
Defined.

(** The claim C10 as it is worded fails for a file name that gives the
    generated name a second component: with "cat.png/x" the uploads
    directory has no directory to hold the file, [open] fails before the
    chat is looked up, and the answer is that error, not 404; no file is
    written. *)
Lemma upload_to_unknown_chat_without_file :
  valid_token Demo.env Demo.world Demo.bob_token Demo.bob_claims ∧
  content_type Demo.nested = Some "image/png" ∧
  Py.startswith "image/png" "image/" = true ∧
  chat_by_id "c-nobody" Demo.world = None ∧
  ∃ w', upload_image Demo.env "c-nobody" Demo.nested "gatto" Demo.bob_token Demo.world
        = (Raise OSError, w') ∧
        uploads w' = uploads Demo.world.
Proof.
  split; [reflexivity|]. split; [reflexivity|]. split; [reflexivity|].
  split; [reflexivity|].
  eexists. split; [vm_compute; reflexivity|]. reflexivity.
Qed.


(** ** Facts about the document store *)

Section store.

Context {A : Type} (P : A → Prop) `{∀ x, Decision (P x)}.

Lemma find_one_nil : Mongo.find_one P [] = None.
Proof. reflexivity. Qed.

Lemma find_one_cons x l :
  Mongo.find_one P (x :: l) = if decide (P x) then Some x else Mongo.find_one P l.
Proof.
  unfold Mongo.find_one. rewrite filter_cons. destruct (decide (P x)); reflexivity.
Qed.

Lemma find_one_holds l x : Mongo.find_one P l = Some x → P x ∧ x ∈ l.
Proof.
  induction l as [|y l IH]; [discriminate|].
  rewrite find_one_cons. destruct (decide (P y)) as [Hy|Hy].
  - intros [= ->]. split; [exact Hy|]. constructor.
  - intros Hf. destruct (IH Hf) as [HP Hin]. split; [exact HP|]. by constructor.
Qed.

(** Documents appended later never hide the first match. *)
Lemma find_one_app_Some l k x :
  Mongo.find_one P l = Some x → Mongo.find_one P (l ++ k) = Some x.
Proof.
  induction l as [|y l IH]; [discriminate|].
  cbn [app]. rewrite !find_one_cons. destruct (decide (P y)); auto.
Qed.

Lemma find_one_app_None l k :
  Mongo.find_one P l = None → Mongo.find_one P (l ++ k) = Mongo.find_one P k.
Proof.
  induction l as [|y l IH]; [reflexivity|].
  cbn [app]. rewrite !find_one_cons. destruct (decide (P y)); [discriminate|auto].
Qed.

Lemma find_one_insert_one l x :
  Mongo.find_one P l = None → P x → Mongo.find_one P (Mongo.insert_one x l) = Some x.
Proof.
  intros Hnone Hx. unfold Mongo.insert_one. rewrite (find_one_app_None _ _ Hnone).
  rewrite find_one_cons. destruct (decide (P x)); [reflexivity|contradiction].
Qed.

(** An update that keeps the query's key updates what [find_one] finds. *)
Lemma find_one_update_one (f : A → A) l :
  (∀ x, P x → P (f x)) →
  Mongo.find_one P (Mongo.update_one P f l) = f <$> Mongo.find_one P l.
Proof.
  intros Hf. induction l as [|y l IH]; [reflexivity|].
  cbn [Mongo.update_one]. rewrite find_one_cons.
  destruct (decide (P y)) as [Hy|Hy].
  - rewrite find_one_cons. destruct (decide (P (f y))) as [|Hn]; [reflexivity|].
    destruct Hn. auto.
  - rewrite find_one_cons. destruct (decide (P y)); [contradiction|exact IH].
Qed.

Lemma update_one_twice (f g : A → A) l :
  (∀ x, P x → P (f x)) →
  Mongo.update_one P g (Mongo.update_one P f l) = Mongo.update_one P (g ∘ f) l.
Proof.
  intros Hf. induction l as [|y l IH]; [reflexivity|].
  cbn [Mongo.update_one]. destruct (decide (P y)) as [Hy|Hy]; cbn [Mongo.update_one].
  - destruct (decide (P (f y))) as [|Hn]; [reflexivity|]. destruct Hn. auto.
  - destruct (decide (P y)); [contradiction|]. f_equal. exact IH.
Qed.

(** Only the first match is touched: an update that leaves it as it is
    leaves the collection as it is. *)
Lemma update_one_fixes_first (f : A → A) l c :
  Mongo.find_one P l = Some c → f c = c → Mongo.update_one P f l = l.
Proof.
  intros Hfind Hf. induction l as [|y l IH]; [reflexivity|].
  rewrite find_one_cons in Hfind. cbn [Mongo.update_one].
  destruct (decide (P y)) as [Hy|Hy].
  - injection Hfind as ->. by rewrite Hf.
  - f_equal. by apply IH.
Qed.

End store.

Section sorting_facts.

Context {A : Type} (key : A → Z).

Global Instance key_le_total : Total (Mongo.key_le key).
Proof. intros a b. unfold Mongo.key_le. lia. Qed.

Global Instance key_le_trans : Transitive (Mongo.key_le key).
Proof. intros a b c. unfold Mongo.key_le. lia. Qed.

Global Instance key_le_refl : Reflexive (Mongo.key_le key).
Proof. intros a. unfold Mongo.key_le. lia. Qed.

Global Instance key_ge_refl : Reflexive (Mongo.key_ge key).
Proof. intros a. unfold Mongo.key_ge. lia. Qed.

Global Instance key_ge_total : Total (Mongo.key_ge key).
Proof. intros a b. unfold Mongo.key_ge. lia. Qed.

Global Instance key_ge_trans : Transitive (Mongo.key_ge key).
Proof. intros a b c. unfold Mongo.key_ge. lia. Qed.

Lemma sort_asc_sorted l : StronglySorted (Mongo.key_le key) (Mongo.sort_asc key l).
Proof. apply StronglySorted_merge_sort; apply _. Qed.

Lemma sort_asc_perm l : Mongo.sort_asc key l ≡ₚ l.
Proof. apply merge_sort_Permutation. Qed.

Lemma sort_desc_sorted l : StronglySorted (Mongo.key_ge key) (Mongo.sort_desc key l).
Proof. apply StronglySorted_merge_sort; apply _. Qed.

Lemma sort_desc_perm l : Mongo.sort_desc key l ≡ₚ l.
Proof. apply merge_sort_Permutation. Qed.

Lemma StronglySorted_take (R : relation A) n l :
  StronglySorted R l → StronglySorted R (take n l).
Proof.
  intros Hs. rewrite <- (take_drop n l) in Hs.
  by apply StronglySorted_app_1_l in Hs.
Qed.

(** In a strongly sorted list positions and keys go together. *)
Lemma StronglySorted_lookup (R : relation A) `{!Reflexive R} l i j a b :
  StronglySorted R l → (i ≤ j)%nat → l !! i = Some a → l !! j = Some b → R a b.
Proof.
  intros Hs. revert i j. induction Hs as [|x l Hs IH Hall]; intros i j Hij Hi Hj.
  - discriminate.
  - destruct i as [|i], j as [|j]; cbn in Hi, Hj.
    + injection Hi as ->. injection Hj as ->. reflexivity.
    + injection Hi as ->. rewrite Forall_forall in Hall. apply Hall.
      by eapply list_elem_of_lookup_2.
    + lia.
    + apply (IH i j); [lia|done..].
Qed.


End sorting_facts.

(** ** The handoff switch *)

Section toggle.

Variable E : Env.

Lemma toggle_admin_active_run w chat_id chat tok p :
  valid_token E w tok p →
  jwt.is_admin p = true →
  chat_by_id chat_id w = Some chat →
  toggle_admin_active E chat_id tok w
  = (Return {| tr_admin_active := negb (Chat.admin_active chat) |},
     with_chats (Mongo.update_one (λ c, Chat.id c = chat_id)
                   (Chat.set_admin_active (negb (Chat.admin_active chat))))
       (with_clock_read w)).
Proof.
  intros Hv Hadmin Hc. unfold chat_by_id in Hc.
  unfold toggle_admin_active. authenticate Hv. rewrite Hadmin. step. rewrite Hc.
  reflexivity.
Qed.

(** C4: for an existing chat, two toggles of an administrator in a row
    both succeed, the first flips the admin-active flag and the second
    brings it back: the chat, and the whole collection of chats, is as it
    was before the first toggle. *)
Theorem toggle_twice_restores (w : World) (chat_id : string) (chat : Chat.t)
    (tok : jwt.Token) (p : jwt.Payload) :
  valid_token E w tok p →
  valid_token E (with_clock_read w) tok p →
  jwt.is_admin p = true →
  chat_by_id chat_id w = Some chat →
  ∃ w1 w2 chat1,
    toggle_admin_active E chat_id tok w
    = (Return {| tr_admin_active := negb (Chat.admin_active chat) |}, w1) ∧
    chat_by_id chat_id w1 = Some chat1 ∧
    Chat.admin_active chat1 = negb (Chat.admin_active chat) ∧
    toggle_admin_active E chat_id tok w1
    = (Return {| tr_admin_active := Chat.admin_active chat |}, w2) ∧
    chat_by_id chat_id w2 = Some chat ∧
    chats w2 = chats w.
Proof.
  intros Hv Hv' Hadmin Hc.
  pose proof (toggle_admin_active_run w chat_id chat tok p Hv Hadmin Hc) as Hrun1.
  set (w1 := with_chats (Mongo.update_one (λ c, Chat.id c = chat_id)
                 (Chat.set_admin_active (negb (Chat.admin_active chat))))
               (with_clock_read w)) in *.
  set (chat1 := Chat.set_admin_active (negb (Chat.admin_active chat)) chat).
  assert (Hc1 : chat_by_id chat_id w1 = Some chat1).
  { unfold chat_by_id, w1. cbn [chats with_chats with_clock_read].
    rewrite find_one_update_one by (intros x Hx; exact Hx).
    unfold chat_by_id in Hc. rewrite Hc. reflexivity. }
  assert (Hv1 : valid_token E w1 tok p) by exact Hv'.
  pose proof (toggle_admin_active_run w1 chat_id chat1 tok p Hv1 Hadmin Hc1) as Hrun2.
  assert (Hflag : negb (Chat.admin_active chat1) = Chat.admin_active chat).
  { unfold chat1. cbn. apply negb_involutive. }
  rewrite Hflag in Hrun2.
  assert (Hchats :
    Mongo.update_one (λ c, Chat.id c = chat_id)
      (Chat.set_admin_active (Chat.admin_active chat)) (chats w1) = chats w).
  { unfold w1. cbn [chats with_chats with_clock_read].
    rewrite update_one_twice by (intros x Hx; exact Hx).
    apply (update_one_fixes_first _ _ _ chat); [exact Hc|].
    destruct chat; reflexivity. }
  exists w1, (with_chats (Mongo.update_one (λ c, Chat.id c = chat_id)
                            (Chat.set_admin_active (Chat.admin_active chat)))
                (with_clock_read w1)), chat1.
  split; [exact Hrun1|]. split; [exact Hc1|]. split; [reflexivity|].
  split; [exact Hrun2|].
  unfold chat_by_id. cbn [chats with_chats with_clock_read].
  rewrite Hchats. split; [exact Hc|reflexivity].
Qed.

End toggle.

Lemma toggle_twice_restores_witness :
  valid_token Demo.env Demo.world Demo.admin_token Demo.admin_claims ∧
  valid_token Demo.env (with_clock_read Demo.world) Demo.admin_token Demo.admin_claims ∧
  jwt.is_admin Demo.admin_claims = true ∧
  chat_by_id "c-alice" Demo.world = Some Demo.alice_chat ∧
  ∃ w1 w2,
    toggle_admin_active Demo.env "c-alice" Demo.admin_token Demo.world
    = (Return {| tr_admin_active := true |}, w1) ∧
    toggle_admin_active Demo.env "c-alice" Demo.admin_token w1
    = (Return {| tr_admin_active := false |}, w2) ∧
    chats w2 = chats Demo.world.
Proof.
  assert (H1 : valid_token Demo.env Demo.world Demo.admin_token Demo.admin_claims)
    by reflexivity.
  assert (H2 : valid_token Demo.env (with_clock_read Demo.world) Demo.admin_token
                 Demo.admin_claims) by reflexivity.
  assert (H3 : jwt.is_admin Demo.admin_claims = true) by reflexivity.
  assert (H4 : chat_by_id "c-alice" Demo.world = Some Demo.alice_chat) by reflexivity.
  destruct (toggle_twice_restores Demo.env Demo.world "c-alice" Demo.alice_chat
              Demo.admin_token Demo.admin_claims H1 H2 H3 H4)
    as (w1 & w2 & chat1 & Hrun1 & _ & _ & Hrun2 & _ & Hchats).
  split; [exact H1|]. split; [exact H2|]. split; [exact H3|]. split; [exact H4|].
  exists w1, w2. split; [exact Hrun1|]. split; [exact Hrun2|exact Hchats].
Defined.

(** ** Listing the messages of a chat *)

Section listing.

Variable E : Env.

Lemma get_messages_run w chat_id tok p :
  valid_token E w tok p →
  get_messages E chat_id tok w
  = (Return (Mongo.to_list 1000
               (Mongo.sort_asc Message.timestamp
                  (Mongo.find (λ m, Message.chat_id m = chat_id) (messages w)))),
     with_clock_read w).
Proof.
  intros Hv. unfold get_messages. authenticate Hv. reflexivity.
Qed.


End listing.


(** ** Who may read and write a chat *)

Section ownership.

Variable E : Env.

(** C9: neither route looks at the owner of the chat.  With any token
    that verifies, a caller who is not an administrator and does not own
    the chat is given the chat's messages by [get_messages], and
    [send_message] stores a message of theirs in it. *)
Theorem chat_routes_ignore_owner (w : World) (chat_id : string) (chat : Chat.t)
    (tok : jwt.Token) (p : jwt.Payload) (message : MessageCreate) :
  valid_token E w tok p →
  jwt.is_admin p = false →
  chat_by_id chat_id w = Some chat →
  Chat.user_id chat ≠ jwt.user_id p →
  (∃ msgs,
      get_messages E chat_id tok w = (Return msgs, with_clock_read w) ∧
      ((length (filter (λ m, Message.chat_id m = chat_id) (messages w)) ≤ 1000)%nat →
       ∀ m, m ∈ messages w → Message.chat_id m = chat_id → m ∈ msgs))
  ∧
  (∃ w' user_msg,
      send_message E chat_id message tok w = (Return {| success := true |}, w') ∧
      user_msg ∈ messages w' ∧
      Message.chat_id user_msg = chat_id ∧
      Message.sender user_msg = "user" ∧
      Message.content user_msg = mc_content message ∧
      (length (messages w) < length (messages w'))%nat).
Proof.
  intros Hv _ Hc _. split.
  - eexists. split; [exact (get_messages_run E w chat_id tok p Hv)|].
    intros Hlen m Hin Hm. unfold Mongo.to_list, Mongo.find.
    rewrite take_ge by (by rewrite sort_asc_perm).
    rewrite sort_asc_perm. apply list_elem_of_filter. split; assumption.
  - unfold chat_by_id in Hc. unfold send_message. authenticate Hv. rewrite Hc. step.
    destruct (Chat.admin_active chat); step;
      [|rewrite get_sebastian_ai_response_run; step];
      (do 2 eexists; split; [reflexivity|]; cbn [messages];
       unfold Mongo.insert_one; rewrite ?length_app; cbn [length];
       split;
       [first [ apply elem_of_app; left; apply elem_of_app; right; constructor
              | apply elem_of_app; right; constructor ]
       |split; [reflexivity|split; [reflexivity|split; [reflexivity|lia]]]]).
Qed.

End ownership.

Lemma chat_routes_ignore_owner_witness :
  valid_token Demo.env Demo.world Demo.bob_token Demo.bob_claims ∧
  jwt.is_admin Demo.bob_claims = false ∧
  chat_by_id "c-alice" Demo.world = Some Demo.alice_chat ∧
  Chat.user_id Demo.alice_chat ≠ jwt.user_id Demo.bob_claims ∧
  (∃ msgs,
      get_messages Demo.env "c-alice" Demo.bob_token Demo.world
      = (Return msgs, with_clock_read Demo.world) ∧
      Demo.greeting ∈ msgs) ∧
  (∃ w' user_msg,
      send_message Demo.env "c-alice" Demo.hello Demo.bob_token Demo.world
      = (Return {| success := true |}, w') ∧
      user_msg ∈ messages w' ∧
      Message.chat_id user_msg = "c-alice" ∧
      Message.content user_msg = "hi").
Proof.
  assert (H1 : valid_token Demo.env Demo.world Demo.bob_token Demo.bob_claims)
    by reflexivity.
  assert (H2 : jwt.is_admin Demo.bob_claims = false) by reflexivity.
  assert (H3 : chat_by_id "c-alice" Demo.world = Some Demo.alice_chat) by reflexivity.
  assert (H4 : Chat.user_id Demo.alice_chat ≠ jwt.user_id Demo.bob_claims)
    by discriminate.
  destruct (chat_routes_ignore_owner Demo.env Demo.world "c-alice" Demo.alice_chat
              Demo.bob_token Demo.bob_claims Demo.hello H1 H2 H3 H4)
    as [(msgs & Hget & Hall) (w' & um & Hsend & Hin & Hchat & _ & Hcontent & _)].
  split; [exact H1|]. split; [exact H2|]. split; [exact H3|]. split; [exact H4|].
  split.
  - exists msgs. split; [exact Hget|].
    apply Hall; [|constructor|reflexivity].
    change (filter (λ m, Message.chat_id m = "c-alice") (messages Demo.world))
      with [Demo.greeting]. cbn. lia.
  - exists w', um. split; [exact Hsend|]. split; [exact Hin|].
    split; [exact Hchat|exact Hcontent].
Defined.

(** ** Users are only ever added

    No route removes or rewrites a user: across any request the users
    collection keeps what it held, in place, and may grow at its end. *)

Section keeps_users.

Variable E : Env.

Lemma keeps_users_ret {A} (a : A) : keeps_users (mret a).
Proof. intros w. reflexivity. Qed.

Lemma keeps_users_raise {A} e : keeps_users (raise (A := A) e).
Proof. intros w. reflexivity. Qed.

Lemma keeps_users_get {A} (f : World → A) : keeps_users (get f).
Proof. intros w. reflexivity. Qed.

Lemma keeps_users_bind {A B} (m : App A) (f : A → App B) :
  keeps_users m → (∀ a, keeps_users (f a)) → keeps_users (m ≫= f).
Proof.
  intros Hm Hf w. unfold mbind, App_bind. specialize (Hm w).
  destruct (m w) as [[a|e] w1]; cbn [snd] in *; [|exact Hm].
  etrans; [exact Hm|apply Hf].
Qed.

Lemma keeps_users_try {A} (m : App A) (h : Exception → App A) :
  keeps_users m → (∀ e, keeps_users (h e)) → keeps_users (try_except m h).
Proof.
  intros Hm Hh w. unfold try_except. specialize (Hm w).
  destruct (m w) as [[a|e] w1]; cbn [snd] in *; [exact Hm|].
  etrans; [exact Hm|apply Hh].
Qed.

Lemma keeps_users_modify (f : World → World) :
  (∀ w, users w `prefix_of` users (f w)) → keeps_users (modify f).
Proof. intros Hf w. apply Hf. Qed.

Lemma keeps_users_insert_user u : keeps_users (modify (with_users (Mongo.insert_one u))).
Proof. apply keeps_users_modify. intros w. by apply prefix_app_r. Qed.

Lemma keeps_users_with_chats f : keeps_users (modify (with_chats f)).
Proof. apply keeps_users_modify. reflexivity. Qed.

Lemma keeps_users_with_messages f : keeps_users (modify (with_messages f)).
Proof. apply keeps_users_modify. reflexivity. Qed.

Lemma keeps_users_with_uploads f : keeps_users (modify (with_uploads f)).
Proof. apply keeps_users_modify. reflexivity. Qed.

Lemma keeps_users_open name : keeps_users (aiofiles_open E name).
Proof. intros w. destruct (aiofiles_open_pure E name w) as [-> _]. reflexivity. Qed.

Lemma keeps_users_write f content : keeps_users (f_write f content).
Proof. destruct f; intros w; reflexivity. Qed.

Lemma keeps_users_uuid : keeps_users (uuid_uuid4 E).
Proof. intros w. reflexivity. Qed.

Lemma keeps_users_now : keeps_users (datetime_now E).
Proof. intros w. reflexivity. Qed.

Lemma keeps_users_llm chat m : keeps_users (chat_send_message E chat m).
Proof.
  intros w. unfold chat_send_message. destruct (llm E _ _ _); reflexivity.
Qed.

End keeps_users.

Ltac keeps_users_step :=
  lazymatch goal with
  | |- keeps_users (mbind _ _) => apply keeps_users_bind; [|intros ?]
  | |- keeps_users (try_except _ _) => apply keeps_users_try; [|intros ?]
  | |- keeps_users (mret _) => apply keeps_users_ret
  | |- keeps_users (raise _) => apply keeps_users_raise
  | |- keeps_users (get _) => apply keeps_users_get
  | |- keeps_users (uuid_uuid4 _) => apply keeps_users_uuid
  | |- keeps_users (aiofiles_open _ _) => apply keeps_users_open
  | |- keeps_users (f_write _ _) => apply keeps_users_write
  | |- keeps_users (datetime_now _) => apply keeps_users_now
  | |- keeps_users (chat_send_message _ _ _) => apply keeps_users_llm
  | |- keeps_users (modify (with_users (Mongo.insert_one _))) => apply keeps_users_insert_user
  | |- keeps_users (modify (with_chats _)) => apply keeps_users_with_chats
  | |- keeps_users (modify (with_messages _)) => apply keeps_users_with_messages
  | |- keeps_users (modify (with_uploads _)) => apply keeps_users_with_uploads
  | |- keeps_users (match ?x with _ => _ end) => destruct x
  end.

Ltac keeps_users_auto :=
  cbv beta zeta delta
    [register login admin_login get_or_create_chat get_messages send_message upload_image
     get_all_chats admin_respond toggle_admin_active verify_token recent_history
     get_sebastian_ai_response response_strip new_User new_Message new_Chat];
  repeat keeps_users_step.

Section runs_keep_users.

Variable E : Env.

Lemma handle_keeps_users r w : users w `prefix_of` users (handle E r w).
Proof.
  destruct r; cbn [handle].
  - revert w. change (keeps_users (register E user0)). keeps_users_auto.
  - revert w. change (keeps_users (login user0)). keeps_users_auto.
  - revert w. change (keeps_users (admin_login E user0)). keeps_users_auto.
  - revert w. change (keeps_users (get_or_create_chat E credentials)). keeps_users_auto.
  - revert w. change (keeps_users (get_messages E chat_id credentials)). keeps_users_auto.
  - revert w. change (keeps_users (send_message E chat_id message credentials)).
    keeps_users_auto.
  - revert w. change (keeps_users (upload_image E chat_id file caption credentials)).
    keeps_users_auto.
  - revert w. change (keeps_users (get_all_chats E credentials)). keeps_users_auto.
  - revert w. change (keeps_users (admin_respond E chat_id message credentials)).
    keeps_users_auto.
  - revert w. change (keeps_users (toggle_admin_active E chat_id credentials)).
    keeps_users_auto.
Qed.

Lemma serve_keeps_users rs w : users w `prefix_of` users (serve E rs w).
Proof.
  revert w. induction rs as [|r rs IH]; intros w; [reflexivity|].
  cbn. etrans; [apply handle_keeps_users|apply IH].
Qed.

(** A user found by name stays the user found by that name. *)
Lemma serve_keeps_user_by_name rs w name u :
  user_by_name name w = Some u → user_by_name name (serve E rs w) = Some u.
Proof.
  intros Hu. destruct (serve_keeps_users rs w) as [k Hk].
  unfold user_by_name in *. rewrite Hk. by apply find_one_app_Some.
Qed.

End runs_keep_users.

(** ** Registration and the administrator's login *)

Section credentials.

Variable E : Env.

Lemma decode_created_token now user_id is_admin :
  jwt.decode now (create_token user_id is_admin) JWT_SECRET ["HS256"]
  = jwt.Claims {| jwt.user_id := user_id; jwt.is_admin := is_admin; jwt.exp := None |}.
Proof.
  unfold create_token, jwt.encode, jwt.decode.
  rewrite bool_decide_eq_true_2; [reflexivity|].
  split; [reflexivity|constructor].
Qed.

Lemma register_taken w u existing :
  user_by_name (uc_username u) w = Some existing →
  register E u w = (Raise (HTTPException 400 "Username already exists"), w).
Proof.
  intros Hu. unfold user_by_name in Hu. unfold register. step. rewrite Hu. reflexivity.
Qed.


Lemma admin_login_run w u :
  ul_username u = "admin" → ul_password u = "sebastian_admin" →
  admin_login E u w =
  match user_by_name "admin" w with
  | Some existing =>
      (Return {| token := create_token (User.id existing) true;
                 user := {| ui_id := User.id existing;
                            ui_username := User.username existing;
                            ui_is_admin := true |} |}, w)
  | None =>
      (Return {| token := create_token (uuid4 E (uuids_drawn w)) true;
                 user := {| ui_id := uuid4 E (uuids_drawn w);
                            ui_username := "admin";
                            ui_is_admin := true |} |},
       with_users (Mongo.insert_one
                     (User.mk (uuid4 E (uuids_drawn w)) "admin"
                        (hash_password "sebastian_admin") true
                        (utcnow E (clock_reads w))))
         (with_clock_read (with_uuid_drawn w)))
  end.
Proof.
  intros Hn Hp. unfold admin_login. rewrite Hn, Hp.
  rewrite !bool_decide_eq_true_2 by reflexivity. cbn [andb]. step.
  destruct (Mongo.find_one _ (users w)); reflexivity.
Qed.

(** C6: the administrator's login is refused with status 401, and
    changes nothing, for every pair other than ("admin",
    "sebastian_admin"); for that pair it succeeds with a token whose admin
    flag is true.  It adds the admin user, marked as admin, when no user
    is named "admin", and otherwise adds nothing and answers the id of
    the user found.  After one successful login, whatever requests are
    served in between, every later login of the pair answers the same id
    and leaves the world as it is. *)
Theorem admin_login_reserved (w : World) (u : UserLogin) :
  ((ul_username u, ul_password u) ≠ ("admin", "sebastian_admin") →
   admin_login E u w = (Raise (HTTPException 401 "Invalid admin credentials"), w))
  ∧
  ((ul_username u, ul_password u) = ("admin", "sebastian_admin") →
   ∃ w1 resp,
     admin_login E u w = (Return resp, w1) ∧
     ui_is_admin (user resp) = true ∧
     (∀ now, jwt.decode now (token resp) JWT_SECRET ["HS256"]
             = jwt.Claims {| jwt.user_id := ui_id (user resp);
                             jwt.is_admin := true; jwt.exp := None |}) ∧
     (user_by_name "admin" w = None →
      ∃ created, users w1 = users w ++ [created] ∧
                 User.username created = "admin" ∧
                 User.is_admin created = true ∧
                 User.password_hash created = SHA256.hexdigest "sebastian_admin" ∧
                 User.id created = ui_id (user resp)) ∧
     (∀ existing, user_by_name "admin" w = Some existing →
                  w1 = w ∧ ui_id (user resp) = User.id existing) ∧
     (∀ rs, ∃ resp2,
         admin_login E u (serve E rs w1) = (Return resp2, serve E rs w1) ∧
         ui_id (user resp2) = ui_id (user resp) ∧
         ui_is_admin (user resp2) = true)).
Proof.
  split.
  - intros Hne. unfold admin_login.
    destruct (bool_decide (ul_username u = "admin")) eqn:Hn;
      destruct (bool_decide (ul_password u = "sebastian_admin")) eqn:Hp;
      cbn [andb]; try reflexivity.
    apply bool_decide_eq_true_1 in Hn, Hp. destruct Hne. by rewrite Hn, Hp.
  - intros [= Hn Hp].
    assert (Hlater : ∀ w1 found, user_by_name "admin" w1 = Some found →
              ∀ rs, ∃ resp2,
                admin_login E u (serve E rs w1) = (Return resp2, serve E rs w1) ∧
                ui_id (user resp2) = User.id found ∧ ui_is_admin (user resp2) = true).
    { intros w1 found Hfound rs. rewrite (admin_login_run _ _ Hn Hp).
      rewrite (serve_keeps_user_by_name E rs w1 _ _ Hfound).
      eexists. split; [reflexivity|]. split; reflexivity. }
    rewrite (admin_login_run _ _ Hn Hp).
    destruct (user_by_name "admin" w) as [existing|] eqn:Hu.
    + do 2 eexists. split; [reflexivity|]. cbn [user token ui_id ui_is_admin].
      split; [reflexivity|]. split; [intros now; apply decode_created_token|].
      split; [discriminate|]. split.
      * intros ? [= <-]. split; reflexivity.
      * apply Hlater. exact Hu.
    + do 2 eexists. split; [reflexivity|]. cbn [user token ui_id ui_is_admin].
      split; [reflexivity|]. split; [intros now; apply decode_created_token|].
      split; [|split; [discriminate|]].
      * intros _. eexists. split; [reflexivity|]. repeat split.
      * apply (Hlater _ (User.mk (uuid4 E (uuids_drawn w)) "admin"
                           (hash_password "sebastian_admin") true
                           (utcnow E (clock_reads w)))).
        unfold user_by_name in *. cbn [users with_users with_clock_read with_uuid_drawn].
        apply find_one_insert_one; [exact Hu|reflexivity].
Qed.

End credentials.


Lemma admin_login_reserved_witness :
  user_by_name "admin" Demo.world = None ∧
  admin_login Demo.env {| ul_username := "admin"; ul_password := "letmein" |} Demo.world
  = (Raise (HTTPException 401 "Invalid admin credentials"), Demo.world) ∧
  ∃ w1 resp created resp2,
    admin_login Demo.env {| ul_username := "admin"; ul_password := "sebastian_admin" |}
      Demo.world = (Return resp, w1) ∧
    users w1 = users Demo.world ++ [created] ∧
    User.is_admin created = true ∧
    admin_login Demo.env {| ul_username := "admin"; ul_password := "sebastian_admin" |}
      (serve Demo.env [SendMessage "c-alice" Demo.hello Demo.bob_token] w1)
    = (Return resp2, serve Demo.env [SendMessage "c-alice" Demo.hello Demo.bob_token] w1) ∧
    ui_id (user resp2) = ui_id (user resp).
Proof.
  assert (H1 : user_by_name "admin" Demo.world = None) by reflexivity.
  destruct (admin_login_reserved Demo.env Demo.world
              {| ul_username := "admin"; ul_password := "letmein" |}) as [Hrefused _].
  destruct (admin_login_reserved Demo.env Demo.world
              {| ul_username := "admin"; ul_password := "sebastian_admin" |})
    as [_ Haccepted].
  destruct (Haccepted eq_refl) as (w1 & resp & Hrun & _ & _ & Hnew & _ & Hlater).
  destruct (Hnew H1) as (created & Husers & _ & Hadmin & _).
  destruct (Hlater [SendMessage "c-alice" Demo.hello Demo.bob_token])
    as (resp2 & Hrun2 & Hid & _).
  split; [exact H1|]. split; [apply Hrefused; discriminate|].
  exists w1, resp, created, resp2.
  split; [exact Hrun|]. split; [exact Husers|]. split; [exact Hadmin|].
  split; [exact Hrun2|exact Hid].
Defined.

(** ** The context handed to the model *)

Section context_window.

Context {A : Type} (key : A → Z).

(** The newest document comes first in a descending sort. *)
Lemma sorted_desc_newest_first (s l : list A) (x : A) :
  StronglySorted (Mongo.key_ge key) s →
  s ≡ₚ l ++ [x] →
  (∀ y, y ∈ l → key y < key x) →
  ∃ rest, s = x :: rest ∧ rest ≡ₚ l.
Proof.
  intros Hs Hp Hmax.
  assert (Hp' : s ≡ₚ x :: l) by (rewrite Hp; apply Permutation_app_comm).
  destruct s as [|h t].
  { apply Permutation_nil_cons in Hp'. destruct Hp'. }
  apply StronglySorted_inv in Hs as [_ Hall]. rewrite Forall_forall in Hall.
  assert (Hh : h ∈ x :: l) by (rewrite <- Hp'; constructor).
  assert (Hx : x ∈ h :: t) by (rewrite Hp'; constructor).
  assert (Heq : h = x).
  { apply elem_of_cons in Hh as [Hh|Hh]; [exact Hh|].
    apply elem_of_cons in Hx as [Hx|Hx]; [by symmetry|].
    specialize (Hall x Hx). specialize (Hmax h Hh). unfold Mongo.key_ge in Hall. lia. }
  subst h. exists t. split; [reflexivity|]. by apply (Permutation_cons_inv (a := x)).
Qed.

Lemma but_last_cons (x : A) (r : list A) :
  r ≠ [] → Py.but_last (x :: r) = x :: Py.but_last r.
Proof.
  intros Hr. unfold Py.but_last. destruct r as [|y r]; [congruence|].
  cbn [length]. rewrite !Nat.sub_succ, !Nat.sub_0_r. reflexivity.
Qed.

Lemma last_n_snoc (n : nat) (h : list A) (e : A) :
  Py.last_n (S n) (h ++ [e]) = Py.last_n n h ++ [e].
Proof.
  unfold Py.last_n. rewrite length_app. cbn [length].
  replace (length h + 1 - S n)%nat with (length h - n)%nat by lia.
  rewrite drop_app. replace (length h - n - length h)%nat with 0%nat by lia.
  reflexivity.
Qed.

Lemma length_last_n (n : nat) (h : list A) : (length (Py.last_n n h) ≤ n)%nat.
Proof. unfold Py.last_n. rewrite length_drop. lia. Qed.

End context_window.

Section context.

Variable E : Env.

Lemma build_prompt_snoc message h e :
  build_prompt message (h ++ [e]) None
  = "Contesto della conversazione:" +:+ nl
    +:+ Py.join nl ((context_line <$> Py.last_n 5 h) ++ [context_line e])
    +:+ nl +:+ nl +:+ "Nuovo messaggio: " +:+ message.
Proof.
  unfold build_prompt.
  destruct (h ++ [e]) as [|a k] eqn:Hk; [by destruct h|].
  rewrite <- Hk, last_n_snoc, fmap_app. reflexivity.
Qed.

(** C2 (what the code does instead): in an automatic chat that holds an
    earlier message, all of the chat's messages being older than the one
    just sent, the context handed to the model ends with the line of the
    just-sent message itself, after at most five lines of earlier ones:
    the slice meant to drop the message just sent drops the oldest of the
    ten fetched. *)
Theorem context_ends_with_just_sent (w : World) (chat_id : string) (chat : Chat.t)
    (tok : jwt.Token) (p : jwt.Payload) (message : MessageCreate) (old : Message.t) :
  valid_token E w tok p →
  chat_by_id chat_id w = Some chat →
  Chat.admin_active chat = false →
  old ∈ messages w →
  Message.chat_id old = chat_id →
  (∀ m, m ∈ messages w → Message.chat_id m = chat_id →
        Message.timestamp m < utcnow E (S (clock_reads w))) →
  ∃ w' lines,
    send_message E chat_id message tok w = (Return {| success := true |}, w') ∧
    (length lines ≤ 5)%nat ∧
    llm_calls w'
    = llm_calls w ++
      [(persona_chat E (mc_content message),
        {| text := "Contesto della conversazione:" +:+ nl
                   +:+ Py.join nl (lines ++ ["Utente: " +:+ mc_content message])
                   +:+ nl +:+ nl +:+ "Nuovo messaggio: " +:+ mc_content message |})].
Proof.
  intros Hv Hc Hauto Hold Holdc Hts. unfold chat_by_id in Hc.
  unfold send_message. authenticate Hv. rewrite Hc. step. rewrite Hauto. step.
  rewrite get_sebastian_ai_response_run. step.
  set (new := Message.mk (uuid4 E (uuids_drawn w)) chat_id "user" (mc_content message)
                (mc_message_type message) None (utcnow E (S (clock_reads w))) false).
  set (mine := λ m : Message.t, Message.chat_id m = chat_id).
  destruct (sorted_desc_newest_first Message.timestamp
              (Mongo.sort_desc Message.timestamp
                 (Mongo.find mine (Mongo.insert_one new (messages w))))
              (filter mine (messages w)) new)
    as (rest & Hsorted & Hrest).
  { apply sort_desc_sorted. }
  { rewrite sort_desc_perm. unfold Mongo.find, Mongo.insert_one.
    rewrite filter_app, filter_cons_True by reflexivity. reflexivity. }
  { intros y Hy. apply list_elem_of_filter in Hy as [Hy1 Hy2]. exact (Hts y Hy2 Hy1). }
  rewrite Hsorted.
  assert (Hne : take 9 rest ≠ []).
  { assert (Hin : old ∈ rest)
      by (rewrite Hrest; apply list_elem_of_filter; split; assumption).
    destruct rest; [inversion Hin|discriminate]. }
  unfold Mongo.to_list, Mongo.limit. cbn [take].
  replace (take 9 (take 9 rest)) with (take 9 rest)
    by (rewrite take_take; f_equal; lia).
  rewrite (but_last_cons _ _ Hne), reverse_cons, fmap_app. cbn [fmap list_fmap].
  cbn [Message.image_url Message.sender Message.content new].
  unfold persona_call. rewrite !build_prompt_snoc.
  do 2 eexists. split; [reflexivity|]. split; [|reflexivity].
  rewrite length_fmap. apply length_last_n.
Qed.

End context.

Lemma context_ends_with_just_sent_witness :
  valid_token Demo.env Demo.world Demo.bob_token Demo.bob_claims ∧
  chat_by_id "c-alice" Demo.world = Some Demo.alice_chat ∧
  Chat.admin_active Demo.alice_chat = false ∧
  Demo.greeting ∈ messages Demo.world ∧
  Message.chat_id Demo.greeting = "c-alice" ∧
  (∀ m, m ∈ messages Demo.world → Message.chat_id m = "c-alice" →
        Message.timestamp m < utcnow Demo.env (S (clock_reads Demo.world))) ∧
  ∃ w',
    send_message Demo.env "c-alice" Demo.hello Demo.bob_token Demo.world
    = (Return {| success := true |}, w') ∧
    text ∘ snd <$> llm_calls w'
    = ["Contesto della conversazione:" +:+ nl +:+ "Utente: hi" +:+ nl +:+ nl
       +:+ "Nuovo messaggio: hi"].
Proof.
  assert (H1 : valid_token Demo.env Demo.world Demo.bob_token Demo.bob_claims)
    by reflexivity.
  assert (H2 : chat_by_id "c-alice" Demo.world = Some Demo.alice_chat) by reflexivity.
  assert (H3 : Chat.admin_active Demo.alice_chat = false) by reflexivity.
  assert (H4 : Demo.greeting ∈ messages Demo.world) by constructor.
  assert (H5 : Message.chat_id Demo.greeting = "c-alice") by reflexivity.
  assert (H6 : ∀ m, m ∈ messages Demo.world → Message.chat_id m = "c-alice" →
                 Message.timestamp m < utcnow Demo.env (S (clock_reads Demo.world))).
  { intros m Hm _. apply list_elem_of_singleton in Hm. subst m. reflexivity. }
  destruct (context_ends_with_just_sent Demo.env Demo.world "c-alice" Demo.alice_chat
              Demo.bob_token Demo.bob_claims Demo.hello Demo.greeting
              H1 H2 H3 H4 H5 H6)
    as (w' & lines & Hrun & _ & _).
  assert (Hcalls :
    text ∘ snd <$> llm_calls
      (snd (send_message Demo.env "c-alice" Demo.hello Demo.bob_token Demo.world))
    = ["Contesto della conversazione:" +:+ nl +:+ "Utente: hi" +:+ nl +:+ nl
       +:+ "Nuovo messaggio: hi"])
    by (vm_compute; reflexivity).
  rewrite Hrun in Hcalls.
  split; [exact H1|]. split; [exact H2|]. split; [exact H3|]. split; [exact H4|].
  split; [exact H5|]. split; [exact H6|].
  exists w'. split; [exact Hrun|exact Hcalls].
Defined.


(** * Further properties of the routes *)

(** ** Tokens *)

Section tokens.

Variable E : Env.

(** X1: a token issued by [create_token] carries no expiry: whenever it
    is presented, [verify_token] accepts it and gives back the user id and
    the admin flag it was issued for. *)
Theorem issued_token_always_verifies (w : World) (user_id : string) (is_admin : bool) :
  verify_token E (create_token user_id is_admin) w
  = (Return {| jwt.user_id := user_id; jwt.is_admin := is_admin; jwt.exp := None |},
     with_clock_read w).
Proof.
  unfold verify_token. step. rewrite decode_created_token. reflexivity.
Qed.

(** X2: [verify_token] answers 401 "Invalid token" for a token that is no
    token or was signed with another key or algorithm, and 401 "Token
    expired" for a well-signed token whose expiry is not after the clock;
    either way only the clock was read. *)
Theorem verify_token_rejects (w : World) :
  (∀ raw, verify_token E (jwt.Garbage raw) w
          = (Raise (HTTPException 401 "Invalid token"), with_clock_read w))
  ∧
  (∀ key alg p, key ≠ JWT_SECRET ∨ alg ≠ "HS256" →
     verify_token E (jwt.Signed key alg p) w
     = (Raise (HTTPException 401 "Invalid token"), with_clock_read w))
  ∧
  (∀ p e, jwt.exp p = Some e → e ≤ utcnow E (clock_reads w) →
     verify_token E (jwt.Signed JWT_SECRET "HS256" p) w
     = (Raise (HTTPException 401 "Token expired"), with_clock_read w))
  ∧
  (∀ p e, jwt.exp p = Some e → utcnow E (clock_reads w) < e →
     verify_token E (jwt.Signed JWT_SECRET "HS256" p) w = (Return p, with_clock_read w)).
Proof.
  split; [|split; [|split]].
  - intros raw. reflexivity.
  - intros key alg p Hbad. unfold verify_token. step. unfold jwt.decode.
    rewrite bool_decide_eq_false_2; [reflexivity|].
    intros [Hk Ha]. apply list_elem_of_singleton in Ha. destruct Hbad; contradiction.
  - intros p e Hexp Hle. unfold verify_token. step. unfold jwt.decode.
    rewrite bool_decide_eq_true_2 by (split; [reflexivity|constructor]).
    rewrite Hexp, bool_decide_eq_true_2 by exact Hle. reflexivity.
  - intros p e Hexp Hlt. unfold verify_token. step. unfold jwt.decode.
    rewrite bool_decide_eq_true_2 by (split; [reflexivity|constructor]).
    rewrite Hexp, bool_decide_eq_false_2 by lia. reflexivity.
Qed.

(** X3: every protected route answers 401 to a token that does not
    verify, before it reads or writes anything: the world differs from the
    one before by the one reading of the clock. *)
Theorem protected_routes_need_token (w : World) (tok : jwt.Token) :
  rejected_token E w tok →
  ∃ detail,
    get_or_create_chat E tok w
    = (Raise (HTTPException 401 detail), with_clock_read w) ∧
    (∀ chat_id, get_messages E chat_id tok w
                = (Raise (HTTPException 401 detail), with_clock_read w)) ∧
    (∀ chat_id message, send_message E chat_id message tok w
                        = (Raise (HTTPException 401 detail), with_clock_read w)) ∧
    (∀ chat_id file caption, upload_image E chat_id file caption tok w
                             = (Raise (HTTPException 401 detail), with_clock_read w)) ∧
    get_all_chats E tok w = (Raise (HTTPException 401 detail), with_clock_read w) ∧
    (∀ chat_id message, admin_respond E chat_id message tok w
                        = (Raise (HTTPException 401 detail), with_clock_read w)) ∧
    (∀ chat_id, toggle_admin_active E chat_id tok w
                = (Raise (HTTPException 401 detail), with_clock_read w)).
Proof.
  intros Hbad. unfold rejected_token in Hbad.
  unfold get_or_create_chat, get_messages, send_message, upload_image, get_all_chats,
    admin_respond, toggle_admin_active.
  step.
  destruct (jwt.decode (utcnow E (clock_reads w)) tok JWT_SECRET ["HS256"]) as [p| |]
    eqn:Hd.
  - destruct (Hbad p). reflexivity.
  - exists "Token expired". repeat split.
  - exists "Invalid token". repeat split.
Qed.

(** X4: the three administrator routes answer 403 to a valid token
    whose admin flag is false, and touch nothing but the clock. *)
Theorem admin_routes_need_admin (w : World) (tok : jwt.Token) (p : jwt.Payload) :
  valid_token E w tok p →
  jwt.is_admin p = false →
  get_all_chats E tok w
  = (Raise (HTTPException 403 "Admin access required"), with_clock_read w) ∧
  (∀ chat_id message, admin_respond E chat_id message tok w
     = (Raise (HTTPException 403 "Admin access required"), with_clock_read w)) ∧
  (∀ chat_id, toggle_admin_active E chat_id tok w
     = (Raise (HTTPException 403 "Admin access required"), with_clock_read w)).
Proof.
  intros Hv Hp.
  unfold get_all_chats, admin_respond, toggle_admin_active.
  authenticate Hv. rewrite Hp. repeat split.
Qed.

End tokens.

Lemma protected_routes_need_token_witness :
  rejected_token Demo.env Demo.world (jwt.Garbage "not-a-token") ∧
  get_messages Demo.env "c-alice" (jwt.Garbage "not-a-token") Demo.world
  = (Raise (HTTPException 401 "Invalid token"), with_clock_read Demo.world) ∧
  send_message Demo.env "c-alice" Demo.hello (jwt.Garbage "not-a-token") Demo.world
  = (Raise (HTTPException 401 "Invalid token"), with_clock_read Demo.world).
Proof.
  assert (H1 : rejected_token Demo.env Demo.world (jwt.Garbage "not-a-token"))
    by (intros p; discriminate).
  destruct (protected_routes_need_token Demo.env Demo.world (jwt.Garbage "not-a-token") H1)
    as (detail & _ & Hget & Hsend & _).
  assert (Hd : detail = "Invalid token").
  { specialize (Hget "c-alice"). vm_compute in Hget. congruence. }
  subst detail.
  split; [exact H1|]. split; [exact (Hget "c-alice")|exact (Hsend "c-alice" Demo.hello)].
Defined.

Lemma admin_routes_need_admin_witness :
  valid_token Demo.env Demo.world Demo.bob_token Demo.bob_claims ∧
  jwt.is_admin Demo.bob_claims = false ∧
  toggle_admin_active Demo.env "c-alice" Demo.bob_token Demo.world
  = (Raise (HTTPException 403 "Admin access required"), with_clock_read Demo.world).
Proof.
  assert (H1 : valid_token Demo.env Demo.world Demo.bob_token Demo.bob_claims)
    by reflexivity.
  assert (H2 : jwt.is_admin Demo.bob_claims = false) by reflexivity.
  destruct (admin_routes_need_admin Demo.env Demo.world Demo.bob_token Demo.bob_claims
              H1 H2) as (_ & _ & Htoggle).
  split; [exact H1|]. split; [exact H2|exact (Htoggle "c-alice")].
Defined.

(** ** Logging in *)

Section logging_in.

Variable E : Env.



End logging_in.


(** ** What no request undoes *)

Section keeps.

Variable E : Env.
Context (R : relation World) `{!Bookkeeping R}.

Lemma keeps_ret {A} (a : A) : keeps R (mret a).
Proof. intros w. reflexivity. Qed.

Lemma keeps_raise {A} e : keeps R (raise (A := A) e).
Proof. intros w. reflexivity. Qed.

Lemma keeps_get {A} (f : World → A) : keeps R (get f).
Proof. intros w. reflexivity. Qed.

Lemma keeps_bind {A B} (m : App A) (f : A → App B) :
  keeps R m → (∀ a, keeps R (f a)) → keeps R (m ≫= f).
Proof.
  intros Hm Hf w. unfold mbind, App_bind. specialize (Hm w).
  destruct (m w) as [[a|e] w1]; cbn [snd] in *; [|exact Hm].
  etrans; [exact Hm|apply Hf].
Qed.

Lemma keeps_try {A} (m : App A) (h : Exception → App A) :
  keeps R m → (∀ e, keeps R (h e)) → keeps R (try_except m h).
Proof.
  intros Hm Hh w. unfold try_except. specialize (Hm w).
  destruct (m w) as [[a|e] w1]; cbn [snd] in *; [exact Hm|].
  etrans; [exact Hm|apply Hh].
Qed.

Lemma keeps_uuid : keeps R (uuid_uuid4 E).
Proof. intros w. apply bk_uuid. Qed.

Lemma keeps_now : keeps R (datetime_now E).
Proof. intros w. apply bk_clock. Qed.

Lemma keeps_llm chat m : keeps R (chat_send_message E chat m).
Proof.
  intros w. unfold chat_send_message. destruct (llm E _ _ _); apply bk_llm.
Qed.

Lemma keeps_with_users f : keeps R (modify (with_users f)).
Proof. intros w. apply bk_users. Qed.

Lemma keeps_with_uploads f : keeps R (modify (with_uploads f)).
Proof. intros w. apply bk_uploads. Qed.

Lemma keeps_open name : keeps R (aiofiles_open E name).
Proof. intros w. destruct (aiofiles_open_pure E name w) as [-> _]. reflexivity. Qed.

Lemma keeps_f_write f content : keeps R (f_write f content).
Proof. destruct f; [apply keeps_with_uploads|intros w; reflexivity]. Qed.

End keeps.

Section update_keeps_key.

Context {A K : Type} (key : A → K) (P : A → Prop) `{∀ x, Decision (P x)}.

(** An update that keeps the key of a document keeps the keys of the
    collection. *)
Lemma fmap_update_one (f : A → A) l :
  (∀ x, key (f x) = key x) → key <$> Mongo.update_one P f l = key <$> l.
Proof.
  intros Hf. induction l as [|x l IH]; [reflexivity|].
  cbn [Mongo.update_one]. destruct (decide (P x)); cbn; by rewrite ?Hf, ?IH.
Qed.

(** What [find_one] finds by a property of the key is still found, with
    the same key, in a collection whose keys extend the old ones. *)
Lemma find_one_extends l l' c :
  (∀ a b, key a = key b → P a → P b) →
  key <$> l `prefix_of` key <$> l' →
  Mongo.find_one P l = Some c →
  ∃ c', Mongo.find_one P l' = Some c' ∧ key c' = key c.
Proof.
  intros HP. revert l'. induction l as [|x l IH]; intros l' Hpre Hfind;
    [discriminate|].
  destruct l' as [|x' l'].
  { destruct Hpre as [k Hk]. discriminate. }
  destruct Hpre as [k Hk]. cbn in Hk. injection Hk as Hx Hk.
  rewrite find_one_cons in Hfind. rewrite find_one_cons.
  destruct (decide (P x)) as [Hpx|Hnx].
  - injection Hfind as <-. destruct (decide (P x')) as [|Hn]; [eauto|].
    destruct Hn. by apply (HP x).
  - destruct (decide (P x')) as [Hpx'|]; [destruct Hnx; by apply (HP x')|].
    apply IH; [by exists k|exact Hfind].
Qed.

End update_keeps_key.

Section prefix_relations.

Context {A B : Type} (f : World → list B).

Lemma prefix_preorder : PreOrder (λ w w' : World, f w `prefix_of` f w').
Proof.
  split.
  - intros w. reflexivity.
  - intros w1 w2 w3 H12 H23. by etrans.
Qed.

End prefix_relations.

Global Instance messages_grow_bookkeeping : Bookkeeping messages_grow.
Proof.
  split; [apply (prefix_preorder messages)|..]; intros; unfold messages_grow; reflexivity.
Qed.

Global Instance chats_grow_bookkeeping : Bookkeeping chats_grow.
Proof.
  split; [apply (prefix_preorder (λ w, chat_owner <$> chats w))|..];
    intros; unfold chats_grow; reflexivity.
Qed.

Global Instance flags_grow_bookkeeping : Bookkeeping flags_grow.
Proof.
  split; [apply (prefix_preorder (λ w, chat_flag <$> chats w))|..];
    intros; unfold flags_grow; reflexivity.
Qed.

Section invariants.

Variable E : Env.

Lemma messages_grow_insert m :
  keeps messages_grow (modify (with_messages (Mongo.insert_one m))).
Proof. intros w. unfold messages_grow. cbn. by apply prefix_app_r. Qed.

Lemma messages_grow_chats f : keeps messages_grow (modify (with_chats f)).
Proof. intros w. unfold messages_grow. reflexivity. Qed.

Lemma chats_grow_messages f : keeps chats_grow (modify (with_messages f)).
Proof. intros w. unfold chats_grow. reflexivity. Qed.

Lemma chats_grow_insert c : keeps chats_grow (modify (with_chats (Mongo.insert_one c))).
Proof.
  intros w. unfold chats_grow, Mongo.insert_one. cbn. rewrite fmap_app.
  by apply prefix_app_r.
Qed.

Lemma chats_grow_update (P : Chat.t → Prop) `{∀ x, Decision (P x)} g :
  (∀ c, chat_owner (g c) = chat_owner c) →
  keeps chats_grow (modify (with_chats (Mongo.update_one P g))).
Proof.
  intros Hg w. unfold chats_grow. cbn. by rewrite fmap_update_one.
Qed.

Lemma flags_grow_messages f : keeps flags_grow (modify (with_messages f)).
Proof. intros w. unfold flags_grow. reflexivity. Qed.

Lemma flags_grow_insert c : keeps flags_grow (modify (with_chats (Mongo.insert_one c))).
Proof.
  intros w. unfold flags_grow, Mongo.insert_one. cbn. rewrite fmap_app.
  by apply prefix_app_r.
Qed.

Lemma flags_grow_update (P : Chat.t → Prop) `{∀ x, Decision (P x)} now :
  keeps flags_grow (modify (with_chats (Mongo.update_one P (Chat.set_last_message_at now)))).
Proof.
  intros w. unfold flags_grow. cbn. by rewrite fmap_update_one.
Qed.

(** The writes to the chats and the messages, for each relation. *)
Ltac keeps_write :=
  first [ apply messages_grow_insert | apply messages_grow_chats
        | apply chats_grow_messages | apply chats_grow_insert
        | apply chats_grow_update; intros ?; reflexivity
        | apply flags_grow_messages | apply flags_grow_insert | apply flags_grow_update ].

(** One step through a handler. *)
Ltac keeps_step :=
  lazymatch goal with
  | |- Bookkeeping _ => apply _
  | |- keeps _ (mbind _ _) => apply keeps_bind; [| |intros ?]
  | |- keeps _ (try_except _ _) => apply keeps_try; [| |intros ?]
  | |- keeps _ (mret _) => apply keeps_ret
  | |- keeps _ (raise _) => apply keeps_raise
  | |- keeps _ (get _) => apply keeps_get
  | |- keeps _ (uuid_uuid4 _) => apply keeps_uuid
  | |- keeps _ (aiofiles_open _ _) => apply keeps_open
  | |- keeps _ (f_write _ _) => apply keeps_f_write
  | |- keeps _ (datetime_now _) => apply keeps_now
  | |- keeps _ (chat_send_message _ _ _) => apply keeps_llm
  | |- keeps _ (modify (with_users _)) => apply keeps_with_users
  | |- keeps _ (modify (with_uploads _)) => apply keeps_with_uploads
  | |- keeps _ (modify _) => keeps_write
  | |- keeps _ (match ?x with _ => _ end) => destruct x
  end.

Ltac keeps_auto :=
  cbv beta zeta delta
    [register login admin_login get_or_create_chat get_messages send_message upload_image
     get_all_chats admin_respond toggle_admin_active verify_token recent_history
     get_sebastian_ai_response response_strip new_User new_Message new_Chat];
  repeat keeps_step.

Lemma handle_messages_grow r w : messages_grow w (handle E r w).
Proof.
  destruct r; cbn [handle];
    match goal with |- messages_grow _ (snd (?m _)) =>
      revert w; change (keeps messages_grow m) end;
    keeps_auto.
Qed.

Lemma handle_chats_grow r w : chats_grow w (handle E r w).
Proof.
  destruct r; cbn [handle];
    match goal with |- chats_grow _ (snd (?m _)) =>
      revert w; change (keeps chats_grow m) end;
    keeps_auto.
Qed.

Lemma handle_flags_grow r w : is_toggle r = false → flags_grow w (handle E r w).
Proof.
  destruct r; cbn [handle is_toggle]; intros Hr; try discriminate;
    match goal with |- flags_grow _ (snd (?m _)) =>
      revert w; change (keeps flags_grow m) end;
    keeps_auto.
Qed.

Lemma serve_chats_grow rs w : chats_grow w (serve E rs w).
Proof.
  revert w. induction rs as [|r rs IH]; intros w; [reflexivity|].
  cbn. etrans; [apply handle_chats_grow|apply IH].
Qed.

(** X7: no request rewrites or removes a stored message: after any
    sequence of requests the messages collection starts with what it held
    before, in the same order. *)
Theorem messages_are_append_only (rs : list Request) (w : World) :
  messages w `prefix_of` messages (serve E rs w).
Proof.
  revert w. induction rs as [|r rs IH]; intros w; [reflexivity|].
  cbn. etrans; [apply handle_messages_grow|apply IH].
Qed.

(** X8: the handoff flag of a chat changes through the toggle route
    only: after any sequence of requests none of which is a toggle, the
    chat found under an id is still found under it with the flag it had. *)
Theorem handoff_flag_changes_by_toggle_only (rs : list Request) (w : World)
    (chat_id : string) (chat : Chat.t) :
  Forall (λ r, is_toggle r = false) rs →
  chat_by_id chat_id w = Some chat →
  ∃ chat', chat_by_id chat_id (serve E rs w) = Some chat' ∧
           Chat.admin_active chat' = Chat.admin_active chat.
Proof.
  intros Hrs Hc.
  assert (Hgrow : flags_grow w (serve E rs w)).
  { clear Hc. revert w. induction Hrs as [|r rs Hr Hrs IH]; intros w; [reflexivity|].
    cbn. etrans; [by apply handle_flags_grow|apply IH]. }
  destruct (find_one_extends chat_flag (λ c, Chat.id c = chat_id)
              (chats w) (chats (serve E rs w)) chat) as (chat' & Hc' & Hkey).
  - intros a b [= Hid _] Ha. congruence.
  - exact Hgrow.
  - exact Hc.
  - exists chat'. split; [exact Hc'|]. by injection Hkey.
Qed.

End invariants.

Lemma handoff_flag_changes_by_toggle_only_witness :
  Forall (λ r, is_toggle r = false)
    [SendMessage "c-alice" Demo.hello Demo.bob_token;
     AdminRespond "c-alice" {| am_chat_id := "c-alice"; am_content := "Eccomi." |}
       Demo.admin_token] ∧
  chat_by_id "c-alice" Demo.world_operated
  = Some (Chat.set_admin_active true Demo.alice_chat) ∧
  ∃ chat',
    chat_by_id "c-alice"
      (serve Demo.env
         [SendMessage "c-alice" Demo.hello Demo.bob_token;
          AdminRespond "c-alice" {| am_chat_id := "c-alice"; am_content := "Eccomi." |}
            Demo.admin_token]
         Demo.world_operated) = Some chat' ∧
    Chat.admin_active chat' = true.
Proof.
  assert (H1 : Forall (λ r, is_toggle r = false)
                 [SendMessage "c-alice" Demo.hello Demo.bob_token;
                  AdminRespond "c-alice"
                    {| am_chat_id := "c-alice"; am_content := "Eccomi." |}
                    Demo.admin_token])
    by (repeat constructor).
  assert (H2 : chat_by_id "c-alice" Demo.world_operated
               = Some (Chat.set_admin_active true Demo.alice_chat)) by reflexivity.
  destruct (handoff_flag_changes_by_toggle_only Demo.env _ Demo.world_operated "c-alice"
              _ H1 H2) as (chat' & Hfound & Hflag).
  split; [exact H1|]. split; [exact H2|]. exists chat'. split; [exact Hfound|exact Hflag].
Defined.

(** ** One chat for each user *)

Section own_chat.

Variable E : Env.

Lemma get_or_create_chat_existing w tok p chat :
  valid_token E w tok p →
  Mongo.find_one (λ c, Chat.user_id c = jwt.user_id p) (chats w) = Some chat →
  get_or_create_chat E tok w = (Return chat, with_clock_read w).
Proof.
  intros Hv Hc. unfold get_or_create_chat. authenticate Hv. rewrite Hc. reflexivity.
Qed.

(** X9: for a token whose user exists, [get_or_create_chat] answers a
    chat of that user; when the user had none it is a new chat in the
    automatic state carrying the user's name, added at the end of the
    chats.  Later calls with the token, whatever requests were served in
    between, answer the chat with the same id and create nothing. *)
Theorem get_or_create_chat_is_stable (w : World) (tok : jwt.Token) (p : jwt.Payload)
    (u : User.t) :
  valid_token E w tok p →
  Mongo.find_one (λ u, User.id u = jwt.user_id p) (users w) = Some u →
  ∃ w1 chat,
    get_or_create_chat E tok w = (Return chat, w1) ∧
    Chat.user_id chat = jwt.user_id p ∧
    (Mongo.find_one (λ c, Chat.user_id c = jwt.user_id p) (chats w) = None →
     chats w1 = chats w ++ [chat] ∧
     Chat.admin_active chat = false ∧
     Chat.username chat = User.username u) ∧
    (∀ existing,
       Mongo.find_one (λ c, Chat.user_id c = jwt.user_id p) (chats w) = Some existing →
       chat = existing ∧ chats w1 = chats w) ∧
    (∀ rs, valid_token E (serve E rs w1) tok p →
       ∃ chat2,
         get_or_create_chat E tok (serve E rs w1)
         = (Return chat2, with_clock_read (serve E rs w1)) ∧
         Chat.id chat2 = Chat.id chat).
Proof.
  intros Hv Hu.
  assert (Hlater : ∀ w1 chat,
            Mongo.find_one (λ c, Chat.user_id c = jwt.user_id p) (chats w1) = Some chat →
            ∀ rs, valid_token E (serve E rs w1) tok p →
              ∃ chat2,
                get_or_create_chat E tok (serve E rs w1)
                = (Return chat2, with_clock_read (serve E rs w1)) ∧
                Chat.id chat2 = Chat.id chat).
  { intros w1 chat Hfound rs Hv'.
    destruct (find_one_extends chat_owner (λ c, Chat.user_id c = jwt.user_id p)
                (chats w1) (chats (serve E rs w1)) chat) as (chat2 & Hc2 & Hkey).
    - intros a b [= _ Hown] Ha. congruence.
    - apply serve_chats_grow.
    - exact Hfound.
    - exists chat2. split; [by apply (get_or_create_chat_existing _ _ p)|].
      by injection Hkey. }
  destruct (Mongo.find_one (λ c, Chat.user_id c = jwt.user_id p) (chats w))
    as [existing|] eqn:Hc.
  - exists (with_clock_read w), existing.
    split; [by apply (get_or_create_chat_existing _ _ p)|].
    split; [by apply find_one_holds in Hc as [Hc _]|].
    split; [discriminate|]. split; [by intros ? [= <-]|].
    apply Hlater. exact Hc.
  - unfold get_or_create_chat. authenticate Hv. rewrite Hc. step. rewrite Hu. step.
    do 2 eexists. split; [reflexivity|]. cbn [chats Chat.user_id].
    split; [reflexivity|]. split; [intros _; repeat split|]. split; [discriminate|].
    apply Hlater. cbn [chats]. apply find_one_insert_one; [exact Hc|reflexivity].
Qed.

(** X10: a token that verifies but names a user with no record, and no
    chat of theirs, makes [get_or_create_chat] fail on the missing record
    (an unhandled TypeError, not an HTTP error); no chat is created. *)
Theorem get_or_create_chat_without_user (w : World) (tok : jwt.Token) (p : jwt.Payload) :
  valid_token E w tok p →
  Mongo.find_one (λ c, Chat.user_id c = jwt.user_id p) (chats w) = None →
  Mongo.find_one (λ u, User.id u = jwt.user_id p) (users w) = None →
  get_or_create_chat E tok w = (Raise TypeError, with_clock_read w).
Proof.
  intros Hv Hc Hu. unfold get_or_create_chat. authenticate Hv. rewrite Hc. step.
  rewrite Hu. reflexivity.
Qed.

End own_chat.

Lemma get_or_create_chat_is_stable_witness :
  valid_token Demo.env Demo.world Demo.bob_token Demo.bob_claims ∧
  Mongo.find_one (λ u, User.id u = jwt.user_id Demo.bob_claims) (users Demo.world)
  = Some Demo.bob ∧
  ∃ w1 chat chat2,
    get_or_create_chat Demo.env Demo.bob_token Demo.world = (Return chat, w1) ∧
    chats w1 = chats Demo.world ++ [chat] ∧
    Chat.username chat = "bob" ∧
    get_or_create_chat Demo.env Demo.bob_token
      (serve Demo.env [SendMessage "c-alice" Demo.hello Demo.bob_token] w1)
    = (Return chat2,
       with_clock_read (serve Demo.env [SendMessage "c-alice" Demo.hello Demo.bob_token] w1)) ∧
    Chat.id chat2 = Chat.id chat.
Proof.
  assert (H1 : valid_token Demo.env Demo.world Demo.bob_token Demo.bob_claims)
    by reflexivity.
  assert (H2 : Mongo.find_one (λ u, User.id u = jwt.user_id Demo.bob_claims)
                 (users Demo.world) = Some Demo.bob) by reflexivity.
  destruct (get_or_create_chat_is_stable Demo.env Demo.world Demo.bob_token
              Demo.bob_claims Demo.bob H1 H2)
    as (w1 & chat & Hrun & _ & Hnew & _ & Hlater).
  destruct (Hnew eq_refl) as (Hchats & _ & Hname).
  destruct (Hlater [SendMessage "c-alice" Demo.hello Demo.bob_token])
    as (chat2 & Hrun2 & Hid).
  { unfold valid_token. apply decode_created_token. }
  split; [exact H1|]. split; [exact H2|]. exists w1, chat, chat2.
  split; [exact Hrun|]. split; [exact Hchats|]. split; [exact Hname|].
  split; [exact Hrun2|exact Hid].
Defined.

Lemma get_or_create_chat_without_user_witness :
  valid_token Demo.env Demo.world Demo.admin_token Demo.admin_claims ∧
  Mongo.find_one (λ c, Chat.user_id c = jwt.user_id Demo.admin_claims) (chats Demo.world)
  = None ∧
  Mongo.find_one (λ u, User.id u = jwt.user_id Demo.admin_claims) (users Demo.world)
  = None ∧
  get_or_create_chat Demo.env Demo.admin_token Demo.world
  = (Raise TypeError, with_clock_read Demo.world).
Proof.
  assert (H1 : valid_token Demo.env Demo.world Demo.admin_token Demo.admin_claims)
    by reflexivity.
  assert (H2 : Mongo.find_one (λ c, Chat.user_id c = jwt.user_id Demo.admin_claims)
                 (chats Demo.world) = None) by reflexivity.
  assert (H3 : Mongo.find_one (λ u, User.id u = jwt.user_id Demo.admin_claims)
                 (users Demo.world) = None) by reflexivity.
  split; [exact H1|]. split; [exact H2|]. split; [exact H3|].
  exact (get_or_create_chat_without_user Demo.env Demo.world Demo.admin_token
           Demo.admin_claims H1 H2 H3).
Defined.

(** ** The operator's reply and the unknown chat *)

Section operator.

Variable E : Env.

Lemma update_one_no_match {A} (P : A → Prop) `{∀ x, Decision (P x)} (f : A → A) l :
  Mongo.find_one P l = None → Mongo.update_one P f l = l.
Proof.
  induction l as [|x l IH]; [reflexivity|].
  rewrite find_one_cons. cbn [Mongo.update_one].
  destruct (decide (P x)); [discriminate|]. intros Hnone. by rewrite IH.
Qed.

(** X11: an administrator's [admin_respond] appends one message to the
    chat id of the path, tagged "sebastian" and marked as the operator's,
    with the text of the body; it calls no model, leaves every handoff
    flag as it is and stamps the chat's last-message time.  It does not
    check that the chat exists: for an unknown chat id it succeeds all the
    same, stores the message and leaves the chats untouched. *)
Theorem admin_respond_appends (w : World) (chat_id : string) (message : AdminMessage)
    (tok : jwt.Token) (p : jwt.Payload) :
  valid_token E w tok p →
  jwt.is_admin p = true →
  ∃ w' reply,
    admin_respond E chat_id message tok w = (Return {| success := true |}, w') ∧
    messages w' = messages w ++ [reply] ∧
    Message.chat_id reply = chat_id ∧
    Message.sender reply = "sebastian" ∧
    Message.is_admin_response reply = true ∧
    Message.content reply = am_content message ∧
    Message.message_type reply = "text" ∧
    llm_calls w' = llm_calls w ∧
    chat_flag <$> chats w' = chat_flag <$> chats w ∧
    (∀ chat, chat_by_id chat_id w = Some chat →
       chat_by_id chat_id w'
       = Some (Chat.set_last_message_at (utcnow E (S (S (clock_reads w)))) chat)) ∧
    (chat_by_id chat_id w = None → chats w' = chats w).
Proof.
  intros Hv Hadmin. unfold admin_respond. authenticate Hv. rewrite Hadmin. step.
  do 2 eexists. split; [reflexivity|]. cbn [messages llm_calls chats].
  split; [reflexivity|].
  cbn [Message.chat_id Message.sender Message.is_admin_response Message.content
       Message.message_type].
  do 6 (split; [reflexivity|]).
  split; [by apply fmap_update_one|]. split.
  - intros chat Hc. unfold chat_by_id in *. cbn [chats].
    rewrite find_one_update_one by (intros x Hx; exact Hx). by rewrite Hc.
  - intros Hnone. by apply update_one_no_match.
Qed.

(** X12: [send_message] to a chat id that does not exist answers 404
    before anything is written: no message is stored and the model is not
    called. *)
Theorem send_message_to_unknown_chat (w : World) (chat_id : string)
    (message : MessageCreate) (tok : jwt.Token) (p : jwt.Payload) :
  valid_token E w tok p →
  chat_by_id chat_id w = None →
  send_message E chat_id message tok w
  = (Raise (HTTPException 404 "Chat not found"), with_clock_read w).
Proof.
  intros Hv Hc. unfold chat_by_id in Hc. unfold send_message. authenticate Hv.
  rewrite Hc. reflexivity.
Qed.

(** X13: once the operator has switched a chat to human-operated, the
    user's next message is stored and left without any automatic reply,
    and the model is not called. *)
Theorem no_reply_after_takeover (w : World) (chat_id : string) (chat : Chat.t)
    (admin_tok user_tok : jwt.Token) (pa pu : jwt.Payload) (message : MessageCreate) :
  valid_token E w admin_tok pa →
  jwt.is_admin pa = true →
  valid_token E (with_clock_read w) user_tok pu →
  chat_by_id chat_id w = Some chat →
  Chat.admin_active chat = false →
  ∃ w1 w2 user_msg,
    toggle_admin_active E chat_id admin_tok w
    = (Return {| tr_admin_active := true |}, w1) ∧
    send_message E chat_id message user_tok w1 = (Return {| success := true |}, w2) ∧
    messages w2 = messages w ++ [user_msg] ∧
    Message.sender user_msg = "user" ∧
    Message.content user_msg = mc_content message ∧
    llm_calls w2 = llm_calls w.
Proof.
  intros Hva Hadmin Hvu Hc Hauto.
  rewrite (toggle_admin_active_run E w chat_id chat admin_tok pa Hva Hadmin Hc).
  rewrite Hauto. cbn [negb].
  do 3 eexists. split; [reflexivity|].
  unfold send_message. unfold valid_token in Hvu. step.
  cbn [clock_reads with_clock_read] in Hvu. rewrite Hvu. step.
  rewrite find_one_update_one by (intros x Hx; exact Hx).
  unfold chat_by_id in Hc. rewrite Hc. cbn [fmap option_fmap option_map]. step.
  cbn [Chat.admin_active Chat.set_admin_active negb]. step.
  split; [reflexivity|]. cbn [messages llm_calls].
  repeat split.
Qed.

End operator.

Lemma admin_respond_appends_witness :
  valid_token Demo.env Demo.world Demo.admin_token Demo.admin_claims ∧
  jwt.is_admin Demo.admin_claims = true ∧
  chat_by_id "c-nobody" Demo.world = None ∧
  ∃ w' reply,
    admin_respond Demo.env "c-nobody"
      {| am_chat_id := "c-alice"; am_content := "Eccomi." |} Demo.admin_token Demo.world
    = (Return {| success := true |}, w') ∧
    messages w' = messages Demo.world ++ [reply] ∧
    Message.chat_id reply = "c-nobody" ∧
    Message.is_admin_response reply = true ∧
    chats w' = chats Demo.world.
Proof.
  assert (H1 : valid_token Demo.env Demo.world Demo.admin_token Demo.admin_claims)
    by reflexivity.
  assert (H2 : jwt.is_admin Demo.admin_claims = true) by reflexivity.
  assert (H3 : chat_by_id "c-nobody" Demo.world = None) by reflexivity.
  destruct (admin_respond_appends Demo.env Demo.world "c-nobody"
              {| am_chat_id := "c-alice"; am_content := "Eccomi." |}
              Demo.admin_token Demo.admin_claims H1 H2)
    as (w' & reply & Hrun & Hm & Hchat & _ & Hop & _ & _ & _ & _ & _ & Hnone).
  split; [exact H1|]. split; [exact H2|]. split; [exact H3|].
  exists w', reply. split; [exact Hrun|]. split; [exact Hm|]. split; [exact Hchat|].
  split; [exact Hop|exact (Hnone H3)].
Defined.

Lemma send_message_to_unknown_chat_witness :
  valid_token Demo.env Demo.world Demo.bob_token Demo.bob_claims ∧
  chat_by_id "c-nobody" Demo.world = None ∧
  send_message Demo.env "c-nobody" Demo.hello Demo.bob_token Demo.world
  = (Raise (HTTPException 404 "Chat not found"), with_clock_read Demo.world).
Proof.
  assert (H1 : valid_token Demo.env Demo.world Demo.bob_token Demo.bob_claims)
    by reflexivity.
  assert (H2 : chat_by_id "c-nobody" Demo.world = None) by reflexivity.
  split; [exact H1|]. split; [exact H2|].
  exact (send_message_to_unknown_chat Demo.env Demo.world "c-nobody" Demo.hello
           Demo.bob_token Demo.bob_claims H1 H2).
Defined.

Lemma no_reply_after_takeover_witness :
  valid_token Demo.env Demo.world Demo.admin_token Demo.admin_claims ∧
  jwt.is_admin Demo.admin_claims = true ∧
  valid_token Demo.env (with_clock_read Demo.world) Demo.bob_token Demo.bob_claims ∧
  chat_by_id "c-alice" Demo.world = Some Demo.alice_chat ∧
  Chat.admin_active Demo.alice_chat = false ∧
  ∃ w1 w2 user_msg,
    toggle_admin_active Demo.env "c-alice" Demo.admin_token Demo.world
    = (Return {| tr_admin_active := true |}, w1) ∧
    send_message Demo.env "c-alice" Demo.hello Demo.bob_token w1
    = (Return {| success := true |}, w2) ∧
    messages w2 = [Demo.greeting; user_msg] ∧
    llm_calls w2 = [].
Proof.
  assert (H1 : valid_token Demo.env Demo.world Demo.admin_token Demo.admin_claims)
    by reflexivity.
  assert (H2 : jwt.is_admin Demo.admin_claims = true) by reflexivity.
  assert (H3 : valid_token Demo.env (with_clock_read Demo.world) Demo.bob_token
                 Demo.bob_claims) by reflexivity.
  assert (H4 : chat_by_id "c-alice" Demo.world = Some Demo.alice_chat) by reflexivity.
  assert (H5 : Chat.admin_active Demo.alice_chat = false) by reflexivity.
  destruct (no_reply_after_takeover Demo.env Demo.world "c-alice" Demo.alice_chat
              Demo.admin_token Demo.bob_token Demo.admin_claims Demo.bob_claims
              Demo.hello H1 H2 H3 H4 H5)
    as (w1 & w2 & um & Htoggle & Hsend & Hm & _ & _ & Hcalls).
  split; [exact H1|]. split; [exact H2|]. split; [exact H3|]. split; [exact H4|].
  split; [exact H5|].
  exists w1, w2, um. split; [exact Htoggle|]. split; [exact Hsend|].
  split; [exact Hm|exact Hcalls].
Defined.

(** ** Listings and their cap *)

Section listings.

Variable E : Env.

(** X14: an administrator's [get_all_chats] lists the chats by
    last-message time, the most recent first, at most 1000 of them, each
    a stored chat; up to 1000 chats it lists them all. *)
Theorem get_all_chats_most_recent_first (w : World) (tok : jwt.Token) (p : jwt.Payload) :
  valid_token E w tok p →
  jwt.is_admin p = true →
  ∃ cs,
    get_all_chats E tok w = (Return cs, with_clock_read w) ∧
    (∀ i j a b, (i ≤ j)%nat → cs !! i = Some a → cs !! j = Some b →
       Chat.last_message_at b ≤ Chat.last_message_at a) ∧
    (length cs ≤ 1000)%nat ∧
    (∀ c, c ∈ cs → c ∈ chats w) ∧
    ((length (chats w) ≤ 1000)%nat → cs ≡ₚ chats w).
Proof.
  intros Hv Hadmin. unfold get_all_chats. authenticate Hv. rewrite Hadmin. step.
  eexists. split; [reflexivity|]. unfold Mongo.to_list.
  split; [|split; [|split]].
  - intros i j a b Hij Hi Hj.
    change (Mongo.key_ge Chat.last_message_at a b).
    eapply (StronglySorted_lookup (Mongo.key_ge Chat.last_message_at));
      [|exact Hij|exact Hi|exact Hj].
    apply StronglySorted_take, sort_desc_sorted.
  - rewrite length_take. lia.
  - intros c Hc. apply elem_of_take in Hc as (i & Hi & _).
    apply list_elem_of_lookup_2 in Hi. by rewrite sort_desc_perm in Hi.
  - intros Hlen. rewrite take_ge; [apply sort_desc_perm|].
    by rewrite sort_desc_perm.
Qed.

Lemma filter_none {A} (Q : A → Prop) `{∀ x, Decision (Q x)} (l : list A) :
  (∀ x, x ∈ l → ¬ Q x) → filter Q l = [].
Proof.
  induction l as [|x l IH]; [reflexivity|]. intros Hl.
  rewrite filter_cons_False by (apply Hl; constructor).
  apply IH. intros y Hy. apply Hl. by constructor.
Qed.

(** In an ascending list, what is strictly below an element stands
    before it. *)
Lemma sorted_smaller_before {A} (key : A → Z) (s : list A) (i : nat) (x : A) :
  StronglySorted (Mongo.key_le key) s →
  s !! i = Some x →
  (length (filter (λ y, (key y < key x)%Z) s) ≤ i)%nat.
Proof.
  intros Hs Hi. rewrite <- (take_drop i s) at 1. rewrite filter_app, length_app.
  rewrite (filter_none _ (drop i s)).
  - cbn. pose proof (length_filter (λ y, key y < key x) (take i s)) as Hlen.
    rewrite length_take in Hlen. lia.
  - intros y Hy Hlt. apply list_elem_of_lookup_1 in Hy as [j Hj].
    rewrite lookup_drop in Hj.
    assert (Hle : Mongo.key_le key x y).
    { eapply (StronglySorted_lookup (Mongo.key_le key) s i (i + j));
        [exact Hs|lia|exact Hi|exact Hj]. }
    unfold Mongo.key_le in Hle. lia.
Qed.

(** X15: [get_messages] keeps the 1000 oldest messages of a chat.  A
    message that has 1000 or more strictly older messages of its chat
    before it is not listed: in a chat that long the newest messages are
    the ones left out. *)
Theorem listing_cap_drops_newest (w : World) (chat_id : string) (tok : jwt.Token)
    (p : jwt.Payload) (new : Message.t) :
  valid_token E w tok p →
  (1000 ≤ length (filter (λ m, (Message.timestamp m < Message.timestamp new)%Z)
                    (chat_messages chat_id w)))%nat →
  ∃ msgs,
    get_messages E chat_id tok w = (Return msgs, with_clock_read w) ∧
    length msgs = 1000%nat ∧
    new ∉ msgs.
Proof.
  intros Hv Hmany. eexists. split; [exact (get_messages_run E w chat_id tok p Hv)|].
  unfold Mongo.to_list. fold (chat_messages chat_id w).
  assert (Hperm : filter (λ m, Message.timestamp m < Message.timestamp new)
                    (Mongo.sort_asc Message.timestamp (chat_messages chat_id w))
                  ≡ₚ filter (λ m, Message.timestamp m < Message.timestamp new)
                       (chat_messages chat_id w))
    by (by rewrite sort_asc_perm).
  apply Permutation_length in Hperm.
  split.
  - rewrite length_take.
    pose proof (length_filter (λ m, Message.timestamp m < Message.timestamp new)
                  (Mongo.sort_asc Message.timestamp (chat_messages chat_id w))).
    lia.
  - intros Hin. apply elem_of_take in Hin as (i & Hi & Hlt).
    pose proof (sorted_smaller_before Message.timestamp _ i new
                  (sort_asc_sorted Message.timestamp _) Hi).
    lia.
Qed.

End listings.

Lemma get_all_chats_most_recent_first_witness :
  valid_token Demo.env Demo.world Demo.admin_token Demo.admin_claims ∧
  jwt.is_admin Demo.admin_claims = true ∧
  ∃ cs,
    get_all_chats Demo.env Demo.admin_token Demo.world
    = (Return cs, with_clock_read Demo.world) ∧
    cs ≡ₚ [Demo.alice_chat].
Proof.
  assert (H1 : valid_token Demo.env Demo.world Demo.admin_token Demo.admin_claims)
    by reflexivity.
  assert (H2 : jwt.is_admin Demo.admin_claims = true) by reflexivity.
  destruct (get_all_chats_most_recent_first Demo.env Demo.world Demo.admin_token
              Demo.admin_claims H1 H2) as (cs & Hrun & _ & _ & _ & Hall).
  split; [exact H1|]. split; [exact H2|]. exists cs. split; [exact Hrun|].
  apply Hall. cbn. lia.
Defined.

Lemma listing_cap_drops_newest_witness :
  valid_token Demo.env archive_world Demo.bob_token Demo.bob_claims ∧
  (1000 ≤ length (filter (λ m, (Message.timestamp m
                                < Message.timestamp (archived_message 1000))%Z)
                    (chat_messages "c-alice" archive_world)))%nat ∧
  archived_message 1000 ∈ messages archive_world ∧
  ∃ msgs,
    get_messages Demo.env "c-alice" Demo.bob_token archive_world
    = (Return msgs, with_clock_read archive_world) ∧
    length msgs = 1000%nat ∧
    archived_message 1000 ∉ msgs.
Proof.
  assert (H1 : valid_token Demo.env archive_world Demo.bob_token Demo.bob_claims)
    by reflexivity.
  assert (H2 : (1000 ≤ length (filter (λ m, (Message.timestamp m
                                  < Message.timestamp (archived_message 1000))%Z)
                          (chat_messages "c-alice" archive_world)))%nat).
  { apply Nat.leb_le. vm_compute. reflexivity. }
  assert (H3 : archived_message 1000 ∈ messages archive_world).
  { apply (list_elem_of_lookup_2 _ 1000%nat). vm_compute. reflexivity. }
  destruct (listing_cap_drops_newest Demo.env archive_world "c-alice" Demo.bob_token
              Demo.bob_claims (archived_message 1000) H1 H2)
    as (msgs & Hrun & Hlen & Hout).
  split; [exact H1|]. split; [exact H2|]. split; [exact H3|].
  exists msgs. split; [exact Hrun|]. split; [exact Hlen|exact Hout].
Defined.

(** ** The first exchange of a chat *)

Section first_exchange.

Variable E : Env.

Lemma sort_asc_pair {A} (key : A → Z) (a b : A) :
  key a < key b → Mongo.sort_asc key [a; b] = [a; b].
Proof.
  intros Hlt. apply (StronglySorted_unique_strong (Mongo.key_le key)).
  - intros x1 x2 H1 H2 H12 H21. unfold Mongo.key_le in *.
    rewrite sort_asc_perm in H1.
    apply elem_of_cons in H1 as [->|H1]; apply elem_of_cons in H2 as [->|H2];
      try reflexivity;
      try apply list_elem_of_singleton in H1 as ->;
      try apply list_elem_of_singleton in H2 as ->;
      try reflexivity; lia.
  - apply sort_asc_sorted.
  - repeat constructor. unfold Mongo.key_le. lia.
  - apply sort_asc_perm.
Qed.

(** X16: the first message sent to an automatic chat that holds no
    message goes to the model as it is, with no conversation context.
    With a clock that moves on between the user's message and the reply,
    listing the chat afterwards gives exactly two messages: the user's,
    then the automatic reply of "sebastian". *)
Theorem first_exchange (w : World) (chat_id : string) (chat : Chat.t)
    (tok : jwt.Token) (p : jwt.Payload) (message : MessageCreate) :
  valid_token E w tok p →
  valid_token E (Nat.iter 4 with_clock_read w) tok p →
  chat_by_id chat_id w = Some chat →
  Chat.admin_active chat = false →
  chat_messages chat_id w = [] →
  utcnow E (S (clock_reads w)) < utcnow E (S (S (S (clock_reads w)))) →
  ∃ w1 user_msg bot,
    send_message E chat_id message tok w = (Return {| success := true |}, w1) ∧
    llm_calls w1
    = llm_calls w ++ [(persona_chat E (mc_content message),
                       {| text := mc_content message |})] ∧
    get_messages E chat_id tok w1 = (Return [user_msg; bot], with_clock_read w1) ∧
    Message.sender user_msg = "user" ∧
    Message.content user_msg = mc_content message ∧
    Message.sender bot = "sebastian" ∧
    Message.is_admin_response bot = false.
Proof.
  intros Hv Hv' Hc Hauto Hempty Hclock.
  unfold chat_by_id in Hc. unfold chat_messages, Mongo.find in Hempty.
  unfold send_message. authenticate Hv. rewrite Hc. step. rewrite Hauto. step.
  rewrite get_sebastian_ai_response_run. step.
  unfold persona_call, Mongo.find, Mongo.insert_one.
  rewrite !filter_app, Hempty, !filter_cons_True by reflexivity.
  cbn [app filter list_filter]. 
  change (Mongo.sort_desc Message.timestamp [?x]) with [x].
  cbn [Mongo.limit Mongo.to_list take Py.but_last length Nat.sub reverse rev_append
       fmap list_fmap].
  do 3 eexists. split; [reflexivity|]. cbn [llm_calls].
  split; [reflexivity|]. split.
  - rewrite (get_messages_run E _ chat_id tok p) by exact Hv'.
    f_equal. f_equal. cbn [messages]. unfold Mongo.to_list, Mongo.find.
    rewrite !filter_app, Hempty, !filter_cons_True by reflexivity.
    cbn [app filter list_filter].
    rewrite sort_asc_pair by exact Hclock. reflexivity.
  - repeat split; reflexivity.
Qed.

End first_exchange.

Lemma first_exchange_witness :
  valid_token Demo.env quiet_world Demo.bob_token Demo.bob_claims ∧
  valid_token Demo.env (Nat.iter 4 with_clock_read quiet_world) Demo.bob_token
    Demo.bob_claims ∧
  chat_by_id "c-alice" quiet_world = Some Demo.alice_chat ∧
  Chat.admin_active Demo.alice_chat = false ∧
  chat_messages "c-alice" quiet_world = [] ∧
  utcnow Demo.env (S (clock_reads quiet_world))
  < utcnow Demo.env (S (S (S (clock_reads quiet_world)))) ∧
  ∃ w1 user_msg bot,
    send_message Demo.env "c-alice" Demo.hello Demo.bob_token quiet_world
    = (Return {| success := true |}, w1) ∧
    get_messages Demo.env "c-alice" Demo.bob_token w1
    = (Return [user_msg; bot], with_clock_read w1) ∧
    Message.content <$> [user_msg; bot] = ["hi"; "Ai vostri ordini."] ∧
    text ∘ snd <$> llm_calls w1 = ["hi"].
Proof.
  assert (H1 : valid_token Demo.env quiet_world Demo.bob_token Demo.bob_claims)
    by reflexivity.
  assert (H2 : valid_token Demo.env (Nat.iter 4 with_clock_read quiet_world)
                 Demo.bob_token Demo.bob_claims) by reflexivity.
  assert (H3 : chat_by_id "c-alice" quiet_world = Some Demo.alice_chat) by reflexivity.
  assert (H4 : Chat.admin_active Demo.alice_chat = false) by reflexivity.
  assert (H5 : chat_messages "c-alice" quiet_world = []) by reflexivity.
  assert (H6 : utcnow Demo.env (S (clock_reads quiet_world))
               < utcnow Demo.env (S (S (S (clock_reads quiet_world))))) by reflexivity.
  destruct (first_exchange Demo.env quiet_world "c-alice" Demo.alice_chat Demo.bob_token
              Demo.bob_claims Demo.hello H1 H2 H3 H4 H5 H6)
    as (w1 & um & bot & Hsend & Hcalls & Hget & _).
  assert (Hcomp :
    match fst (get_messages Demo.env "c-alice" Demo.bob_token
                 (snd (send_message Demo.env "c-alice" Demo.hello Demo.bob_token
                         quiet_world))) with
    | Return l => Message.content <$> l
    | Raise _ => []
    end = ["hi"; "Ai vostri ordini."]) by (vm_compute; reflexivity).
  rewrite Hsend in Hcomp. cbn [snd] in Hcomp. rewrite Hget in Hcomp. cbn [fst] in Hcomp.
  split; [exact H1|]. split; [exact H2|]. split; [exact H3|]. split; [exact H4|].
  split; [exact H5|]. split; [exact H6|].
  exists w1, um, bot. split; [exact Hsend|]. split; [exact Hget|].
  split; [exact Hcomp|]. rewrite Hcalls. reflexivity.
Defined.

(** ** The administrator's account *)

Section admin_account.

Variable E : Env.

(** X17: once the administrator has logged in on a deployment where
    nobody held the name "admin", the name is taken: registering it is
    refused with status 400 whatever the password and whatever requests
    were served since; and the ordinary [login] route accepts the
    reserved pair too, with a token whose admin flag is true. *)
Theorem admin_account_after_first_login (w : World) (rs : list Request) :
  user_by_name "admin" w = None →
  ∃ w1 resp resp2,
    admin_login E {| ul_username := "admin"; ul_password := "sebastian_admin" |} w
    = (Return resp, w1) ∧
    (∀ password,
       register E {| uc_username := "admin"; uc_password := password |} (serve E rs w1)
       = (Raise (HTTPException 400 "Username already exists"), serve E rs w1)) ∧
    login {| ul_username := "admin"; ul_password := "sebastian_admin" |} (serve E rs w1)
    = (Return resp2, serve E rs w1) ∧
    ui_id (user resp2) = ui_id (user resp) ∧
    ui_is_admin (user resp2) = true ∧
    token resp2 = token resp.
Proof.
  intros Hnone.
  rewrite (admin_login_run E w {| ul_username := "admin"; ul_password := "sebastian_admin" |}
             eq_refl eq_refl).
  rewrite Hnone.
  set (created := User.mk (uuid4 E (uuids_drawn w)) "admin"
                    (hash_password "sebastian_admin") true (utcnow E (clock_reads w))).
  set (w1 := with_users _ _).
  assert (Hfound : user_by_name "admin" (serve E rs w1) = Some created).
  { apply serve_keeps_user_by_name. unfold user_by_name, w1 in *.
    cbn [users with_users with_clock_read with_uuid_drawn].
    apply find_one_insert_one; [exact Hnone|reflexivity]. }
  do 3 eexists. split; [reflexivity|]. split.
  - intros password. by eapply register_taken.
  - unfold login. step. cbn [ul_username ul_password].
    unfold user_by_name in Hfound. rewrite Hfound.
    unfold verify_password, created. cbn [User.password_hash].
    rewrite bool_decide_eq_true_2 by exact eq_refl.
    cbn [negb user token ui_id ui_is_admin User.id User.is_admin].
    split; [reflexivity|]. split; [reflexivity|]. split; reflexivity.
Qed.

End admin_account.

Lemma admin_account_after_first_login_witness :
  user_by_name "admin" Demo.world = None ∧
  ∃ w1 resp,
    admin_login Demo.env {| ul_username := "admin"; ul_password := "sebastian_admin" |}
      Demo.world = (Return resp, w1) ∧
    register Demo.env {| uc_username := "admin"; uc_password := "mine" |}
      (serve Demo.env [SendMessage "c-alice" Demo.hello Demo.bob_token] w1)
    = (Raise (HTTPException 400 "Username already exists"),
       serve Demo.env [SendMessage "c-alice" Demo.hello Demo.bob_token] w1).
Proof.
  assert (H1 : user_by_name "admin" Demo.world = None) by reflexivity.
  destruct (admin_account_after_first_login Demo.env Demo.world
              [SendMessage "c-alice" Demo.hello Demo.bob_token] H1)
    as (w1 & resp & resp2 & Hrun & Hreg & _).
  split; [exact H1|]. exists w1, resp. split; [exact Hrun|exact (Hreg "mine")].
Defined.

(** ** The chat that was just written to *)

Section recent_activity.

Variable E : Env.

Lemma update_one_split {A} (P : A → Prop) `{∀ x, Decision (P x)} (f : A → A) l c :
  Mongo.find_one P l = Some c →
  ∃ l1 l2, l = l1 ++ c :: l2 ∧ Mongo.update_one P f l = l1 ++ f c :: l2.
Proof.
  induction l as [|x l IH]; [discriminate|].
  rewrite find_one_cons. cbn [Mongo.update_one].
  destruct (decide (P x)).
  - intros [= ->]. by exists [], l.
  - intros Hfind. destruct (IH Hfind) as (l1 & l2 & -> & ->).
    by exists (x :: l1), l2.
Qed.

Lemma send_message_stamps_chat w chat_id chat tok p message :
  valid_token E w tok p →
  chat_by_id chat_id w = Some chat →
  ∃ w1,
    send_message E chat_id message tok w = (Return {| success := true |}, w1) ∧
    chats w1 = Mongo.update_one (λ c, Chat.id c = chat_id)
                 (Chat.set_last_message_at (utcnow E (S (S (clock_reads w))))) (chats w).
Proof.
  intros Hv Hc. unfold chat_by_id in Hc.
  unfold send_message. authenticate Hv. rewrite Hc. step.
  destruct (Chat.admin_active chat); step;
    [|rewrite get_sebastian_ai_response_run; step];
    (eexists; split; reflexivity).
Qed.

(** X18: a message sent to a chat stamps the chat with the time of the
    request; when that time is later than the last-message time of every
    chat, the administrator's listing made next shows that chat first,
    with the new stamp. *)
Theorem active_chat_is_listed_first (w : World) (chat_id : string) (chat : Chat.t)
    (user_tok admin_tok : jwt.Token) (pu pa : jwt.Payload) (message : MessageCreate) :
  valid_token E w user_tok pu →
  chat_by_id chat_id w = Some chat →
  (∀ c, c ∈ chats w → Chat.last_message_at c < utcnow E (S (S (clock_reads w)))) →
  ∃ w1,
    send_message E chat_id message user_tok w = (Return {| success := true |}, w1) ∧
    (valid_token E w1 admin_tok pa → jwt.is_admin pa = true →
     ∃ others,
       get_all_chats E admin_tok w1
       = (Return (Chat.set_last_message_at (utcnow E (S (S (clock_reads w)))) chat
                    :: others),
          with_clock_read w1)).
Proof.
  intros Hv Hc Hstamps.
  destruct (send_message_stamps_chat w chat_id chat user_tok pu message Hv Hc)
    as (w1 & Hsend & Hchats).
  exists w1. split; [exact Hsend|]. intros Hva Hadmin.
  unfold get_all_chats. authenticate Hva. rewrite Hadmin. step.
  rewrite Hchats. unfold chat_by_id in Hc.
  destruct (update_one_split (λ c, Chat.id c = chat_id)
              (Chat.set_last_message_at (utcnow E (S (S (clock_reads w)))))
              (chats w) chat Hc) as (l1 & l2 & Hl & ->).
  destruct (sorted_desc_newest_first Chat.last_message_at
              (Mongo.sort_desc Chat.last_message_at
                 (l1 ++ Chat.set_last_message_at (utcnow E (S (S (clock_reads w)))) chat
                     :: l2))
              (l1 ++ l2)
              (Chat.set_last_message_at (utcnow E (S (S (clock_reads w)))) chat))
    as (rest & -> & _).
  - apply sort_desc_sorted.
  - rewrite sort_desc_perm. rewrite <- app_assoc.
    apply Permutation_app_head, Permutation_cons_append.
  - intros y Hy. cbn [Chat.last_message_at Chat.set_last_message_at].
    apply Hstamps. rewrite Hl.
    apply elem_of_app in Hy as [Hy|Hy]; apply elem_of_app; [by left|].
    right. by constructor.
  - unfold Mongo.to_list. cbn [take]. eexists. reflexivity.
Qed.

End recent_activity.

Lemma active_chat_is_listed_first_witness :
  valid_token Demo.env Demo.world Demo.bob_token Demo.bob_claims ∧
  chat_by_id "c-alice" Demo.world = Some Demo.alice_chat ∧
  (∀ c, c ∈ chats Demo.world →
        Chat.last_message_at c < utcnow Demo.env (S (S (clock_reads Demo.world)))) ∧
  ∃ w1 others,
    send_message Demo.env "c-alice" Demo.hello Demo.bob_token Demo.world
    = (Return {| success := true |}, w1) ∧
    get_all_chats Demo.env Demo.admin_token w1
    = (Return (Chat.set_last_message_at 102 Demo.alice_chat :: others),
       with_clock_read w1).
Proof.
  assert (H1 : valid_token Demo.env Demo.world Demo.bob_token Demo.bob_claims)
    by reflexivity.
  assert (H2 : chat_by_id "c-alice" Demo.world = Some Demo.alice_chat) by reflexivity.
  assert (H3 : ∀ c, c ∈ chats Demo.world →
                 Chat.last_message_at c
                 < utcnow Demo.env (S (S (clock_reads Demo.world)))).
  { intros c Hc. apply list_elem_of_singleton in Hc. subst c. reflexivity. }
  destruct (active_chat_is_listed_first Demo.env Demo.world "c-alice" Demo.alice_chat
              Demo.bob_token Demo.admin_token Demo.bob_claims Demo.admin_claims
              Demo.hello H1 H2 H3) as (w1 & Hsend & Hlist).
  destruct (Hlist (decode_created_token _ _ _) eq_refl) as (others & Hget).
  split; [exact H1|]. split; [exact H2|]. split; [exact H3|].
  exists w1, others. split; [exact Hsend|exact Hget].
Defined.

(** ** The tags of the stored messages *)

Section tags.

Variable E : Env.

(** X19: toggling the handoff of a chat id that does not exist answers
    404 and changes nothing. *)
Theorem toggle_unknown_chat (w : World) (chat_id : string) (tok : jwt.Token)
    (p : jwt.Payload) :
  valid_token E w tok p →
  jwt.is_admin p = true →
  chat_by_id chat_id w = None →
  toggle_admin_active E chat_id tok w
  = (Raise (HTTPException 404 "Chat not found"), with_clock_read w).
Proof.
  intros Hv Hadmin Hc. unfold chat_by_id in Hc.
  unfold toggle_admin_active. authenticate Hv. rewrite Hadmin. step. rewrite Hc.
  reflexivity.
Qed.

(** Runs a route to its end, splitting on what it inspects: the
    innermost thing inspected first. *)
Ltac run_route :=
  repeat (step;
          try rewrite get_sebastian_ai_response_run;
          try match goal with
              | |- context [aiofiles_open ?E ?n ?v] =>
                  let H := fresh in
                  let v' := fresh in
                  destruct (aiofiles_open_pure E n v) as [H _];
                  destruct (aiofiles_open E n v) as [[[?|]|?] v'];
                  cbn [snd] in H; subst v'
              | |- context [match ?x with _ => _ end] =>
                  lazymatch x with
                  | context [match _ with _ => _ end] => fail
                  | _ => destruct x
                  end
              end).

Lemma handle_well_tagged r w :
  Forall well_tagged (messages w) → Forall well_tagged (messages (handle E r w)).
Proof.
  intros Hw.
  assert (Huser : ∀ i c k t u ts, well_tagged (Message.mk i c "user" k t u ts false))
    by (intros; left; split; reflexivity).
  assert (Hseb : ∀ i c k t u ts b, well_tagged (Message.mk i c "sebastian" k t u ts b))
    by (intros; right; reflexivity).
  destruct r; cbn [handle];
    unfold register, login, admin_login, get_or_create_chat, get_messages, send_message,
      upload_image, get_all_chats, admin_respond, toggle_admin_active;
    run_route; cbn [snd messages]; unfold Mongo.insert_one;
    rewrite ?Forall_app, ?Forall_singleton; auto.
Qed.

(** X20: the routes tag every message they store "user" or
    "sebastian", and only a "sebastian" message is ever marked as written
    by the operator: a store that is tagged so stays so under any sequence
    of requests. *)
Theorem stored_messages_are_well_tagged (rs : list Request) (w : World) :
  Forall well_tagged (messages w) →
  Forall well_tagged (messages (serve E rs w)).
Proof.
  revert w. induction rs as [|r rs IH]; intros w Hw; [exact Hw|].
  cbn. apply IH, handle_well_tagged, Hw.
Qed.

End tags.

Lemma toggle_unknown_chat_witness :
  valid_token Demo.env Demo.world Demo.admin_token Demo.admin_claims ∧
  jwt.is_admin Demo.admin_claims = true ∧
  chat_by_id "c-nobody" Demo.world = None ∧
  toggle_admin_active Demo.env "c-nobody" Demo.admin_token Demo.world
  = (Raise (HTTPException 404 "Chat not found"), with_clock_read Demo.world).
Proof.
  assert (H1 : valid_token Demo.env Demo.world Demo.admin_token Demo.admin_claims)
    by reflexivity.
  assert (H2 : jwt.is_admin Demo.admin_claims = true) by reflexivity.
  assert (H3 : chat_by_id "c-nobody" Demo.world = None) by reflexivity.
  split; [exact H1|]. split; [exact H2|]. split; [exact H3|].
  exact (toggle_unknown_chat Demo.env Demo.world "c-nobody" Demo.admin_token
           Demo.admin_claims H1 H2 H3).
Defined.

Lemma stored_messages_are_well_tagged_witness :
  Forall well_tagged (messages Demo.world) ∧
  Forall well_tagged
    (messages
       (serve Demo.env
          [SendMessage "c-alice" Demo.hello Demo.bob_token;
           AdminRespond "c-alice" {| am_chat_id := "c-alice"; am_content := "Eccomi." |}
             Demo.admin_token;
           UploadImage "c-alice" Demo.photo "gatto" Demo.bob_token]
          Demo.world)) ∧
  length
    (messages
       (serve Demo.env
          [SendMessage "c-alice" Demo.hello Demo.bob_token;
           AdminRespond "c-alice" {| am_chat_id := "c-alice"; am_content := "Eccomi." |}
             Demo.admin_token;
           UploadImage "c-alice" Demo.photo "gatto" Demo.bob_token]
          Demo.world)) = 6%nat.
Proof.
  assert (H1 : Forall well_tagged (messages Demo.world)).
  { constructor; [right; reflexivity|constructor]. }
  split; [exact H1|]. split.
  - exact (stored_messages_are_well_tagged Demo.env _ Demo.world H1).
  - vm_compute. reflexivity.
Defined.

(** ** Uploads that fail *)

Section failed_uploads.

Variable E : Env.

(** X21: an upload that ends in an error has stored no message,
    changed no chat and no user and called no model: the route raises
    only before its first insert.  The error is one of the two 401s of
    the token, the AttributeError of a part that declares no type, the
    400 of a type that is no image, the ValueError or OSError of the
    file that cannot be opened, or the 404 of the unknown chat. *)
Theorem failed_upload_stores_no_message (w w' : World) (chat_id : string)
    (file : UploadFile) (caption : string) (tok : jwt.Token) (e : Exception) :
  upload_image E chat_id file caption tok w = (Raise e, w') →
  messages w' = messages w ∧ chats w' = chats w ∧ users w' = users w ∧
  llm_calls w' = llm_calls w ∧
  e ∈ [HTTPException 401 "Token expired"; HTTPException 401 "Invalid token";
       AttributeError; HTTPException 400 "Only image files are allowed";
       ValueError; OSError; HTTPException 404 "Chat not found"].
Proof.
  assert (Hraised : ∀ e0 v,
    e0 ∈ [HTTPException 401 "Token expired"; HTTPException 401 "Invalid token";
          AttributeError; HTTPException 400 "Only image files are allowed";
          ValueError; OSError; HTTPException 404 "Chat not found"] →
    messages v = messages w → chats v = chats w → users v = users w →
    llm_calls v = llm_calls w →
    (Raise e0 : Outcome UploadResponse, v) = (Raise e, w') →
    messages w' = messages w ∧ chats w' = chats w ∧ users w' = users w ∧
    llm_calls w' = llm_calls w ∧
    e ∈ [HTTPException 401 "Token expired"; HTTPException 401 "Invalid token";
         AttributeError; HTTPException 400 "Only image files are allowed";
         ValueError; OSError; HTTPException 404 "Chat not found"]).
  { intros e0 v He0 Hm Hc Hu Hl Heq. apply pair_equal_spec in Heq as [Heq Hv].
    injection Heq as Heq. subst e0 v. auto. }
  unfold upload_image. step.
  destruct (jwt.decode _ _ _ _) as [q| |]; step;
    [|apply Hraised; first [reflexivity | solve [repeat constructor]]..].
  destruct (content_type file) as [declared|];
    [|apply Hraised; first [reflexivity | solve [repeat constructor]]].
  destruct (Py.startswith declared "image/"); step;
    [|apply Hraised; first [reflexivity | solve [repeat constructor]]].
  match goal with |- context [aiofiles_open E ?n ?v] =>
    destruct (aiofiles_open_pure E n v) as [Hsame Hraise];
    destruct (aiofiles_open E n v) as [[f|e'] v'] end; cbn [snd fst] in *; subst v'.
  - destruct f; step;
      (destruct (Mongo.find_one _ _) as [chat|]; step;
       [|apply Hraised; first [reflexivity | solve [repeat constructor]]];
       destruct (Chat.admin_active chat); step;
       [|rewrite get_sebastian_ai_response_run]; cbn; discriminate).
  - apply Hraised; try reflexivity.
    destruct (Hraise _ eq_refl) as [-> | ->]; repeat constructor.
Qed.

End failed_uploads.

Lemma failed_upload_stores_no_message_witness :
  ∃ w', upload_image Demo.env "c-alice" Demo.nested "gatto" Demo.bob_token Demo.world
        = (Raise OSError, w') ∧
        messages w' = messages Demo.world ∧
        llm_calls w' = llm_calls Demo.world.
Proof.
  eexists. split; [vm_compute; reflexivity|].
  match goal with |- messages ?v = _ ∧ _ =>
    destruct (failed_upload_stores_no_message Demo.env Demo.world v "c-alice" Demo.nested
                "gatto" Demo.bob_token OSError)
      as (Hm & _ & _ & Hl & _); [vm_compute; reflexivity|] end.
  split; [exact Hm|exact Hl].
Defined.
